(** * BookHaven storefront: a shallow embedding of its client-side logic

    The development follows the TypeScript and JavaScript sources of the
    storefront: the cart page (discount codes, subtotal and total), the
    catalog page (filter, sort and paginate), the review service and the
    review section (moderated reviews and their average), the checkout
    page and the payment widgets, the book page, the sign-up and login
    pages, the contact forms and the request hook.

    Conventions of the embedding.
    - A JavaScript string is a [string] of the Standard Library, read as
      its UTF-8 bytes: a string of ASCII characters stands for itself.
    - The functions of the language's library that depend on Unicode
      ([trim], [toUpperCase], [toLowerCase], the UTF-16 code units a
      pattern is matched against) are not written out: they are the fields
      of a [JS.Runtime], of which only what ECMAScript fixes for strings
      of ASCII characters is assumed.  Every property is proved for every
      runtime, hence for the one the program runs on.
    - A JavaScript number that takes part in arithmetic (a price of the
      cart, a discount, a sum of ratings) is a binary64 [float] with the
      operations of IEEE 754; counters, indices, star ratings and time
      stamps are integers [Z], and the price of a book, which the catalog
      only compares, is a rational [Q].
    - React state is a record; a handler is a function from the state
      before the event to the state after it. *)

From Stdlib Require Import List String Ascii Bool ZArith QArith Qround Qabs.
From Stdlib Require Import Lia Lqa Permutation Sorted DecimalString Floats.
Import ListNotations.

(** A decimal literal such as [0.1] denotes the binary64 number nearest
    to it, as it does in the language. *)
Set Warnings "-inexact-float".

Local Open Scope Z_scope.
Local Open Scope string_scope.

(* ================================================================== *)
(** * Part I: the embedding *)
(* ================================================================== *)

(** ** Strings of ASCII characters *)

(** What [trim], [toUpperCase] and [toLowerCase] do to a string whose
    characters are all ASCII, and the code units of such a string. *)
Module AsciiText.

Definition isAsciiChar (c : ascii) : bool := (nat_of_ascii c <? 128)%nat.

Fixpoint isAscii (s : string) : bool :=
  match s with
  | EmptyString => true
  | String c s' => isAsciiChar c && isAscii s'
  end.

(** The white space and line terminators of the language that are ASCII:
    TAB, LF, VT, FF, CR and SPACE. *)
Definition isWhiteSpace (c : ascii) : bool :=
  let n := nat_of_ascii c in
  ((n =? 9) || (n =? 10) || (n =? 11) || (n =? 12) || (n =? 13) || (n =? 32))%nat.

Fixpoint trimStart (s : string) : string :=
  match s with
  | EmptyString => EmptyString
  | String c s' => if isWhiteSpace c then trimStart s' else s
  end.

Fixpoint trimEnd (s : string) : string :=
  match s with
  | EmptyString => EmptyString
  | String c s' =>
      match trimEnd s' with
      | EmptyString => if isWhiteSpace c then EmptyString else String c EmptyString
      | t => String c t
      end
  end.

Definition trim (s : string) : string := trimEnd (trimStart s).

Definition upperChar (c : ascii) : ascii :=
  let n := nat_of_ascii c in
  if ((97 <=? n) && (n <=? 122))%nat then ascii_of_nat (n - 32) else c.

Definition lowerChar (c : ascii) : ascii :=
  let n := nat_of_ascii c in
  if ((65 <=? n) && (n <=? 90))%nat then ascii_of_nat (n + 32) else c.

Fixpoint mapString (f : ascii -> ascii) (s : string) : string :=
  match s with
  | EmptyString => EmptyString
  | String c s' => String (f c) (mapString f s')
  end.

Definition toUpperCase : string -> string := mapString upperChar.
Definition toLowerCase : string -> string := mapString lowerChar.

(** An ASCII character is one UTF-16 code unit, its code. *)
Definition codeUnits (s : string) : list N :=
  map N_of_ascii (list_ascii_of_string s).

End AsciiText.

(** ** The parts of the JavaScript library the sources call *)

Module JS.

(** The library functions that depend on Unicode tables.  [trim s],
    [toUpperCase s] and [toLowerCase s] are [s.trim()], [s.toUpperCase()]
    and [s.toLowerCase()]; [codeUnits s] is the sequence of UTF-16 code
    units of [s], which is what a pattern without the [u] flag is matched
    against.  The four laws say what ECMAScript fixes for a string of
    ASCII characters: [trim] strips TAB, LF, VT, FF, CR and SPACE from
    both ends, the case mappings change the 26 letters only, and each
    character is one code unit. *)
Record Runtime : Type := mkRuntime {
  trim : string -> string;
  toUpperCase : string -> string;
  toLowerCase : string -> string;
  codeUnits : string -> list N;
  trim_ascii :
    forall s, AsciiText.isAscii s = true -> trim s = AsciiText.trim s;
  toUpperCase_ascii :
    forall s, AsciiText.isAscii s = true -> toUpperCase s = AsciiText.toUpperCase s;
  toLowerCase_ascii :
    forall s, AsciiText.isAscii s = true -> toLowerCase s = AsciiText.toLowerCase s;
  codeUnits_ascii :
    forall s, AsciiText.isAscii s = true -> codeUnits s = AsciiText.codeUnits s
}.

(** The runtime cut down to ASCII.  On strings of ASCII characters every
    runtime computes what this one computes; it serves to evaluate the
    code on such inputs. *)
Definition asciiRuntime : Runtime :=
  mkRuntime AsciiText.trim AsciiText.toUpperCase AsciiText.toLowerCase AsciiText.codeUnits
            (fun _ _ => eq_refl) (fun _ _ => eq_refl) (fun _ _ => eq_refl) (fun _ _ => eq_refl).

(** [s.includes(sub)]: [sub] occurs in [s] at some position. *)
Fixpoint includes (s sub : string) : bool :=
  String.prefix sub s ||
  match s with
  | EmptyString => false
  | String _ s' => includes s' sub
  end.

(** Truthiness of a string: every string but the empty one. *)
Definition truthy (s : string) : bool :=
  match s with EmptyString => false | _ => true end.

(** [String(n)] for an integer [n]. *)
Definition ToString (n : Z) : string := NilZero.string_of_int (Z.to_int n).

(** [xs.slice(start, end)], with the relative indices of the language:
    a negative index counts from the end and both are clamped to
    [0 .. length]. *)
Definition relativeIndex (len i : Z) : Z :=
  if (i <? 0)%Z then Z.max (len + i) 0 else Z.min i len.

Definition slice {A} (xs : list A) (start stop : Z) : list A :=
  let len := Z.of_nat (List.length xs) in
  let k := relativeIndex len start in
  let final := relativeIndex len stop in
  firstn (Z.to_nat (Z.max (final - k) 0)) (skipn (Z.to_nat k) xs).

(** [xs.reduce(f, init)] *)
Definition reduce {A B} (f : B -> A -> B) (xs : list A) (init : B) : B :=
  fold_left f xs init.

(** [xs.sort(comparefn)].  A compare function yields a number or NaN
    ([None]); the sort reads NaN as [+0].  The language requires the sort
    to be stable, and for a consistent compare function the stable sorted
    arrangement is unique, so a stable insertion sort computes what every
    conforming engine computes.  For an inconsistent compare function the
    order is implementation-defined and the model fixes one arrangement. *)
Definition SortCompare {A} (comparefn : A -> A -> option Q) (x y : A) : Q :=
  match comparefn x y with
  | Some v => v
  | None => 0%Q
  end.

Fixpoint insert {A} (comparefn : A -> A -> option Q) (x : A) (l : list A) : list A :=
  match l with
  | [] => [x]
  | y :: l' =>
      if Qle_bool (SortCompare comparefn x y) 0
      then x :: l
      else y :: insert comparefn x l'
  end.

Definition sort {A} (comparefn : A -> A -> option Q) (l : list A) : list A :=
  fold_right (insert comparefn) [] l.

(** [Number.isFinite(x)]: neither NaN nor an infinity. *)
Definition isFinite (x : float) : bool :=
  match Prim2SF x with
  | S754_zero _ | S754_finite _ _ _ => true
  | _ => false
  end.

(** [x === y] on numbers: the equality of IEEE 754, under which NaN is
    equal to nothing and the two zeros are equal. *)
Definition sameNumber (x y : float) : bool := PrimFloat.eqb x y.

(** The number an integer denotes: the binary64 value nearest to it
    (the integer itself up to 2^53). *)
Definition ofZ (z : Z) : float := SF2Prim (binary_normalize prec emax z 0 false).

(** The rational a finite binary64 value is: [None] for NaN and the two
    infinities. *)
Definition exact (x : float) : option Q :=
  match Prim2SF x with
  | S754_zero _ => Some 0%Q
  | S754_finite s m e =>
      let mag := if (0 <=? e)%Z
                 then inject_Z (Z.pos m * 2 ^ e)
                 else (Z.pos m # Pos.pow 2 (Z.to_pos (- e))) in
      Some (if s then Qopp mag else mag)
  | _ => None
  end.

(** [x] is finite and is exactly the rational [q]. *)
Definition exactIs (x : float) (q : Q) : bool :=
  match exact x with
  | Some v => Qeq_bool v q
  | None => false
  end.

(** The text of a number.  [NumberText x] is the text that
    [Number::toString] gives for [x]; its digits are not computed here. *)
Inductive Printed : Type :=
| Text (s : string)
| NumberText (x : float).

(** The integer [n] for which [n / 10^f - |q|] is closest to zero, the
    larger one when there are two. *)
Definition roundScaled (f : nat) (q : Q) : Z :=
  Qfloor (Qabs q * inject_Z (10 ^ Z.of_nat f) + (1 # 2)).

Fixpoint padStart (width : nat) (s : string) : string :=
  if (width <=? String.length s)%nat then s
  else match width with
       | O => s
       | S w => String "0"%char (padStart w s)
       end.

(** The digits [toFixed(f)] gives for a finite value [q] below 10^21:
    a minus sign when [q < 0], the whole part, and [f] decimals. *)
Definition fixedDigits (f : nat) (q : Q) : string :=
  let n := roundScaled f q in
  let p := 10 ^ Z.of_nat f in
  let sign := if Qlt_le_dec q 0 then "-" else "" in
  let whole := ToString (n / p) in
  match f with
  | O => sign ++ whole
  | _ => sign ++ whole ++ "." ++ padStart f (ToString (n mod p))
  end.

(** [x.toFixed(f)]: the text of [x] itself when [x] is not finite or is
    10^21 or more in size, and otherwise its nearest decimal with [f]
    digits after the point. *)
Definition toFixed (f : nat) (x : float) : Printed :=
  match Prim2SF x with
  | S754_nan => Text "NaN"
  | S754_infinity false => Text "Infinity"
  | S754_infinity true => Text "-Infinity"
  | _ =>
      match exact x with
      | Some q =>
          if Qle_bool (inject_Z (10 ^ 21)) (Qabs q)
          then NumberText x
          else Text (fixedDigits f q)
      | None => NumberText x
      end
  end.

End JS.


(** ** services/bookService.ts *)

(** A book as the pages read it.  [category] and [releaseDate] are read
    by the catalog although the mock data carries neither; [releaseDate]
    holds the value of [new Date(b.releaseDate).getTime()], with [None]
    for NaN (a missing or unreadable date). *)
Module Book.
(** A price is a finite number.  The catalog does nothing with a price
    but subtract one from another to compare the two, and the difference
    of two finite binary64 numbers has the sign of their exact
    difference, so a price is kept as a rational. *)
Record t : Type := mk {
  id : string;
  title : string;
  author : string;
  price : Q;
  coverImage : string;
  category : option string;
  releaseDate : option Z
}.
End Book.

Module BookService.

(** The list [fetchFeaturedBooks] resolves to. *)
Definition fetchFeaturedBooks : list Book.t :=
  [ Book.mk "1" "The Great Gatsby" "F. Scott Fitzgerald" (1299 # 100)
      "https://placehold.co/200x300?text=Gatsby" None None;
    Book.mk "2" "To Kill a Mockingbird" "Harper Lee" (1099 # 100)
      "https://placehold.co/200x300?text=Mockingbird" None None;
    Book.mk "3" "1984" "George Orwell" (999 # 100)
      "https://placehold.co/200x300?text=1984" None None;
    Book.mk "4" "Pride and Prejudice" "Jane Austen" (1149 # 100)
      "https://placehold.co/200x300?text=Pride+%26+Prejudice" None None ].

End BookService.

(** ** pages/Catalog *)

Module Catalog.

Record State : Type := mkState {
  books : list Book.t;
  search : string;
  author : string;
  genre : string;
  sort : string;
  page : Z;
  error : string;
  loading : bool
}.

Definition initial : State := mkState [] "" "" "" "" 1 "" false.

Definition itemsPerPage : Z := 8.

Definition setBooks (v : list Book.t) (s : State) : State :=
  mkState v (search s) (author s) (genre s) (sort s) (page s) (error s) (loading s).
Definition setSearch (v : string) (s : State) : State :=
  mkState (books s) v (author s) (genre s) (sort s) (page s) (error s) (loading s).
Definition setAuthor (v : string) (s : State) : State :=
  mkState (books s) (search s) v (genre s) (sort s) (page s) (error s) (loading s).
Definition setGenre (v : string) (s : State) : State :=
  mkState (books s) (search s) (author s) v (sort s) (page s) (error s) (loading s).
Definition setSort (v : string) (s : State) : State :=
  mkState (books s) (search s) (author s) (genre s) v (page s) (error s) (loading s).
Definition setPage (v : Z) (s : State) : State :=
  mkState (books s) (search s) (author s) (genre s) (sort s) v (error s) (loading s).
Definition setError (v : string) (s : State) : State :=
  mkState (books s) (search s) (author s) (genre s) (sort s) (page s) v (loading s).
Definition setLoading (v : bool) (s : State) : State :=
  mkState (books s) (search s) (author s) (genre s) (sort s) (page s) (error s) v.

(** [b.category === genre]: an absent category equals no string. *)
Definition categoryIs (genre : string) (b : Book.t) : bool :=
  match Book.category b with
  | Some c => String.eqb c genre
  | None => false
  end.

(** The three compare functions handed to [sort]. *)
Definition byPriceAsc (a b : Book.t) : option Q := Some (Book.price a - Book.price b)%Q.
Definition byPriceDesc (a b : Book.t) : option Q := Some (Book.price b - Book.price a)%Q.
Definition byReleaseDate (a b : Book.t) : option Q :=
  match Book.releaseDate b, Book.releaseDate a with
  | Some tb, Some ta => Some (inject_Z (tb - ta))
  | _, _ => None
  end.

(** [loadBooks], given what awaiting [fetchFeaturedBooks()] produced:
    [Some allBooks] when the promise resolved, [None] when it rejected. *)
Definition loadBooksOn (R : JS.Runtime) (fetched : option (list Book.t)) (s : State) : State :=
  let s := setLoading true s in
  match fetched with
  | Some allBooks =>
      let filtered := allBooks in
      let filtered :=
        if JS.truthy (JS.trim R (search s))
        then filter (fun b => JS.includes (JS.toLowerCase R (Book.title b))
                                          (JS.toLowerCase R (search s))) filtered
        else filtered in
      let filtered :=
        if JS.truthy (JS.trim R (author s))
        then filter (fun b => JS.includes (JS.toLowerCase R (Book.author b))
                                          (JS.toLowerCase R (author s))) filtered
        else filtered in
      let filtered :=
        if JS.truthy (JS.trim R (genre s))
        then filter (categoryIs (genre s)) filtered
        else filtered in
      let filtered :=
        if String.eqb (sort s) "priceAsc" then JS.sort byPriceAsc filtered
        else if String.eqb (sort s) "priceDesc" then JS.sort byPriceDesc filtered
        else if String.eqb (sort s) "releaseDate" then JS.sort byReleaseDate filtered
        else filtered in
      let startIndex := (page s - 1) * itemsPerPage in
      let paginated := JS.slice filtered startIndex (startIndex + itemsPerPage) in
      let s :=
        if (List.length paginated =? 0)%nat
        then setError "No results found" s
        else setError "" s in
      let s := setBooks paginated s in
      setLoading false s
  | None =>
      let s := setError "Failed to load books" s in
      setLoading false s
  end.

(** [loadBooks]: the service always resolves, to the mock list. *)
Definition loadBooks (R : JS.Runtime) (s : State) : State :=
  loadBooksOn R (Some BookService.fetchFeaturedBooks) s.

(** The line [{!loading && error && <p>{error}</p>}]: the message on
    screen, if any. *)
Definition shownMessage (s : State) : option string :=
  if negb (loading s) && JS.truthy (error s) then Some (error s) else None.

(** The Prev and Next buttons.  Prev carries [disabled={page === 1}] and
    a disabled button delivers no click; Next carries no guard. *)
Definition prevDisabled (s : State) : bool := (page s =? 1)%Z.
Definition onPrevClick (s : State) : State :=
  if prevDisabled s then s else setPage (page s - 1) s.
Definition onNextClick (s : State) : State := setPage (page s + 1) s.

(** The states the page goes through: the initial one, then typing in a
    field, choosing in a select, pressing a button, and the effect that
    runs [loadBooks] after each change. *)
Inductive Reachable (R : JS.Runtime) : State -> Prop :=
| ReachInitial : Reachable R initial
| ReachSearch v s : Reachable R s -> Reachable R (setSearch v s)
| ReachAuthor v s : Reachable R s -> Reachable R (setAuthor v s)
| ReachGenre v s : Reachable R s -> Reachable R (setGenre v s)
| ReachSort v s : Reachable R s -> Reachable R (setSort v s)
| ReachPrev s : Reachable R s -> Reachable R (onPrevClick s)
| ReachNext s : Reachable R s -> Reachable R (onNextClick s)
| ReachLoad fetched s : Reachable R s -> Reachable R (loadBooksOn R fetched s).

End Catalog.


(** ** store/slices/cartSlice *)

Module CartSlice.

Record CartItem : Type := mkItem {
  id : string;
  title : string;
  price : float;
  quantity : float
}.

Record CartState : Type := mkState { items : list CartItem }.

Definition initialState : CartState := mkState [].

Inductive Action : Type :=
| addToCart (item : CartItem)
| removeFromCart (itemId : string)
| updateQuantity (itemId : string) (qty : float)
| clearCart
| otherAction.

Definition hasId (itemId : string) (i : CartItem) : bool := String.eqb (id i) itemId.

Definition withQuantity (q : float) (i : CartItem) : CartItem :=
  mkItem (id i) (title i) (price i) q.

(** Modelled from the spec: the reducers of the cart slice, whose source
    file is not among the sources (only its test and its callers are).
    [addToCart] appends when the id is absent and otherwise increments the
    quantity of the entry with that id; [removeFromCart] filters out the
    matching id; [updateQuantity] sets the quantity of the matching id;
    [clearCart] resets to the empty list; any other action leaves the
    state as it is. *)
Definition cartReducer (state : CartState) (action : Action) : CartState :=
  match action with
  | addToCart item =>
      if existsb (hasId (id item)) (items state)
      then mkState (map (fun i => if hasId (id item) i
                                  then withQuantity (quantity i + 1)%float i else i)
                        (items state))
      else mkState (items state ++ [item])%list
  | removeFromCart itemId =>
      mkState (filter (fun i => negb (hasId itemId i)) (items state))
  | updateQuantity itemId qty =>
      mkState (map (fun i => if hasId itemId i then withQuantity qty i else i)
                   (items state))
  | clearCart => mkState []
  | otherAction => state
  end.

End CartSlice.

(** ** pages/Cart *)

Module Cart.

Record State : Type := mkState {
  discountCode : string;
  discount : float;
  error : string
}.

Definition initial : State := mkState "" 0%float "".

Definition setDiscountCode (v : string) (s : State) : State :=
  mkState v (discount s) (error s).
Definition setDiscount (v : float) (s : State) : State :=
  mkState (discountCode s) v (error s).
Definition setError (v : string) (s : State) : State :=
  mkState (discountCode s) (discount s) v.

Definition handleApplyDiscount (R : JS.Runtime) (s : State) : State :=
  if String.eqb (JS.toUpperCase R (JS.trim R (discountCode s))) "SAVE10"
  then setError "" (setDiscount 0.1%float s)
  else setError "Invalid discount code" (setDiscount 0%float s).

Definition subtotal (cart : list CartSlice.CartItem) : float :=
  JS.reduce (fun acc item => acc + CartSlice.price item * CartSlice.quantity item)%float
            cart 0%float.

Definition total (cart : list CartSlice.CartItem) (s : State) : float :=
  (subtotal cart - subtotal cart * discount s)%float.

(** The line [Total: ${total.toFixed(2)}]. *)
Definition shownTotal (cart : list CartSlice.CartItem) (s : State) : JS.Printed :=
  JS.toFixed 2 (total cart s).

(** Typing a code into the field and pressing Apply. *)
Definition applyCode (R : JS.Runtime) (code : string) (s : State) : State :=
  handleApplyDiscount R (setDiscountCode code s).

End Cart.

(** ** services/reviewService *)

Module ReviewService.

Record Review : Type := mkReview {
  id : string;
  user : string;
  rating : Z;
  comment : string;
  approved : bool
}.

(** [Omit<Review, "id" | "approved">] *)
Record NewReview : Type := mkNew {
  newUser : string;
  newRating : Z;
  newComment : string
}.

(** The module variable [mockReviews] is the state the three functions
    share; each takes the store and, if it writes, returns the new one. *)
Definition Store : Type := list Review.

Definition mockReviews : Store :=
  [ mkReview "1" "Alice" 5 "Fantastic read!" true;
    mkReview "2" "Bob" 4 "Enjoyed it a lot." true ].

Definition fetchReviews (bookId : string) (store : Store) : list Review :=
  filter approved store.

(** [now] is the value of [Date.now()] when the timer fires. *)
Definition submitReview (now : Z) (bookId : string) (newReview : NewReview)
    (store : Store) : Store * Review :=
  let review :=
    mkReview (JS.ToString now) (newUser newReview) (newRating newReview)
             (newComment newReview) false in
  ((store ++ [review])%list, review).

Definition approveReview (reviewId : string) (store : Store) : Store :=
  map (fun r => if String.eqb (id r) reviewId
                then mkReview (id r) (user r) (rating r) (comment r) true
                else r)
      store.

(** The operations of the service, for statements over all of them. *)
Inductive Op : Type :=
| OpFetch (bookId : string)
| OpSubmit (now : Z) (bookId : string) (newReview : NewReview)
| OpApprove (reviewId : string).

Definition run (op : Op) (store : Store) : Store :=
  match op with
  | OpFetch _ => store
  | OpSubmit now bookId newReview => fst (submitReview now bookId newReview store)
  | OpApprove reviewId => approveReview reviewId store
  end.

End ReviewService.

(** ** components/ReviewSection *)

Module ReviewSection.

(** The part of the user slice the section reads. *)
Record User : Type := mkUser {
  name : option string;
  token : option string
}.

Definition truthyOpt (o : option string) : bool :=
  match o with
  | Some v => JS.truthy v
  | None => false
  end.

Record State : Type := mkState {
  reviews : list ReviewService.Review;
  newComment : string;
  newRating : Z;
  submitting : bool;
  message : string
}.

Definition initial : State := mkState [] "" 0 false "".

Definition setReviews (v : list ReviewService.Review) (s : State) : State :=
  mkState v (newComment s) (newRating s) (submitting s) (message s).
Definition setNewComment (v : string) (s : State) : State :=
  mkState (reviews s) v (newRating s) (submitting s) (message s).
Definition setNewRating (v : Z) (s : State) : State :=
  mkState (reviews s) (newComment s) v (submitting s) (message s).
Definition setSubmitting (v : bool) (s : State) : State :=
  mkState (reviews s) (newComment s) (newRating s) v (message s).
Definition setMessage (v : string) (s : State) : State :=
  mkState (reviews s) (newComment s) (newRating s) (submitting s) v.

(** The effect [loadReviews] of mounting the section. *)
Definition loadReviews (bookId : string) (store : ReviewService.Store) (s : State) : State :=
  setReviews (ReviewService.fetchReviews bookId store) s.

(** A call of the handler leaves a component state, a review store and
    the list of calls it made to [submitReview]. *)
Record Outcome : Type := mkOutcome {
  state : State;
  store : ReviewService.Store;
  submitCalls : list (string * ReviewService.NewReview)
}.

Definition handleSubmit (R : JS.Runtime) (now : Z) (user : User) (bookId : string)
    (store0 : ReviewService.Store) (s : State) : Outcome :=
  if negb (truthyOpt (token user)) then
    mkOutcome (setMessage "You must be logged in to leave a review." s) store0 []
  else if (newRating s =? 0)%Z || String.eqb (JS.trim R (newComment s)) "" then
    mkOutcome (setMessage "Please provide both a rating and a comment." s) store0 []
  else
    let s1 := setSubmitting true s in
    let newReview :=
      ReviewService.mkNew
        (if truthyOpt (name user)
         then match name user with Some n => n | None => "Anonymous" end
         else "Anonymous")
        (newRating s1) (newComment s1) in
    let '(store1, review) := ReviewService.submitReview now bookId newReview store0 in
    let s2 := setSubmitting false s1 in
    let s3 := setNewComment "" s2 in
    let s4 := setNewRating 0 s3 in
    let s5 := setMessage "Your review has been submitted and is pending approval." s4 in
    mkOutcome s5 store1 [(bookId, newReview)].

(** [averageRating], a string either way.  The ratings are added from 0
    in the order of the list and the sum is divided by the length. *)
Definition averageRating (s : State) : JS.Printed :=
  if (0 <? List.length (reviews s))%nat
  then JS.toFixed 1
         (JS.reduce (fun acc r => acc + JS.ofZ (ReviewService.rating r))%float
                    (reviews s) 0%float
          / JS.ofZ (Z.of_nat (List.length (reviews s))))%float
  else JS.Text "N/A".

End ReviewSection.

(** ** pages/Checkout and the two payment widgets *)

Module Checkout.

(** What the page reads and writes: the cart slice of the store, the
    actions it has dispatched to it, and its two messages. *)
Record World : Type := mkWorld {
  cart : CartSlice.CartState;
  dispatched : list CartSlice.Action;
  confirmation : string;
  error : string
}.

Definition dispatch (a : CartSlice.Action) (w : World) : World :=
  mkWorld (CartSlice.cartReducer (cart w) a) (dispatched w ++ [a])%list
          (confirmation w) (error w).
Definition setConfirmation (v : string) (w : World) : World :=
  mkWorld (cart w) (dispatched w) v (error w).
Definition setError (v : string) (w : World) : World :=
  mkWorld (cart w) (dispatched w) (confirmation w) v.

Definition handleSuccess (w : World) : World :=
  let w := dispatch CartSlice.clearCart w in
  let w := setConfirmation "Order confirmed! An invoice has been sent to your email." w in
  setError "" w.

Definition handleFailure (w : World) : World :=
  let w := setConfirmation "" w in
  setError "Payment failed. Please try again." w.

(** The widgets are rendered only while the cart has items. *)
Definition widgetsShown (w : World) : bool :=
  (0 <? List.length (CartSlice.items (cart w)))%nat.

End Checkout.

Module PayPalPayment.

(** The two callbacks handed to [paypal.Buttons].  [captured] tells
    whether [actions.order.capture()] resolved. *)
Definition onApprove {W} (onSuccess onFailure : W -> W) (captured : bool) (w : W) : W :=
  if captured then onSuccess w else onFailure w.

Definition onError {W} (onSuccess onFailure : W -> W) (w : W) : W :=
  onFailure w.

End PayPalPayment.

Module StripePayment.

(** What [stripe.confirmCardPayment] resolved to: an error, or a payment
    intent (possibly absent) with its status. *)
Inductive Confirmed : Type :=
| WithError
| WithIntent (status : string)
| WithNothing.

(** [handleSubmit] of the card form.  [ready] is
    [stripe && elements && clientSecret], [hasCard] tells whether the
    card element was found, [verified] whether [verifyPayment] resolved;
    when it throws, the handler ends there. *)
Definition handleSubmit {W} (onSuccess onFailure : W -> W)
    (ready hasCard : bool) (result : Confirmed) (verified : bool) (w : W) : W :=
  if negb ready then w
  else if negb hasCard then w
  else match result with
       | WithError => onFailure w
       | WithIntent status =>
           if String.eqb status "succeeded"
           then if verified then onSuccess w else w
           else w
       | WithNothing => w
       end.

End StripePayment.

(** The render of the checkout page hands [handleSuccess] and
    [handleFailure] to both widgets; an event is one run of a widget's
    handler on that wiring. *)
Module CheckoutPage.

Inductive Event : Type :=
| StripeSubmit (ready hasCard : bool) (result : StripePayment.Confirmed) (verified : bool)
| PayPalApprove (captured : bool)
| PayPalError.

Definition fire (e : Event) (w : Checkout.World) : Checkout.World :=
  match e with
  | StripeSubmit ready hasCard result verified =>
      StripePayment.handleSubmit Checkout.handleSuccess Checkout.handleFailure
        ready hasCard result verified w
  | PayPalApprove captured =>
      PayPalPayment.onApprove Checkout.handleSuccess Checkout.handleFailure captured w
  | PayPalError =>
      PayPalPayment.onError Checkout.handleSuccess Checkout.handleFailure w
  end.

(** Which callback an event invokes, if any. *)
Inductive Callback : Type := Success | Failure | NoCallback.

Definition invoked (e : Event) : Callback :=
  match e with
  | StripeSubmit true true StripePayment.WithError _ => Failure
  | StripeSubmit true true (StripePayment.WithIntent status) true =>
      if String.eqb status "succeeded" then Success else NoCallback
  | StripeSubmit _ _ _ _ => NoCallback
  | PayPalApprove true => Success
  | PayPalApprove false => Failure
  | PayPalError => Failure
  end.

End CheckoutPage.

(** ** Reference definitions the properties compare the code with *)

(** [x] may stand before [y] under a compare function: the function does
    not put [x] after [y]. *)
Module Order.

Definition mayPrecede {A} (comparefn : A -> A -> option Q) (x y : A) : Prop :=
  (JS.SortCompare comparefn x y <= 0)%Q.

End Order.

(** The arithmetic mean of a list of numbers, in the arithmetic of the
    language: the numbers added from the left, starting from 0, and the
    sum divided by how many they are.  [total] is the sum of a list of
    integers as an integer. *)
Module Mean.



Definition total (l : list Z) : Z := fold_right Z.add 0 l.


End Mean.

(** The catalog view as the specification words it: three filters, an
    arrangement by the sort key, a page of eight.  [applies] tells for
    which filter strings a filter stage runs.  [nineBooks] and
    [threeDates] are two book lists the properties are checked on. *)
Module CatalogSpec.

(** [needle] occurs in [hay], letter case apart. *)
Definition ContainsCI (R : JS.Runtime) (needle hay : string) : Prop :=
  exists pre post, JS.toLowerCase R hay = pre ++ JS.toLowerCase R needle ++ post.

Definition containsCI (R : JS.Runtime) (needle hay : string) : bool :=
  JS.includes (JS.toLowerCase R hay) (JS.toLowerCase R needle).

Definition byTitle (R : JS.Runtime) (q : string) (l : list Book.t) : list Book.t :=
  filter (fun b => containsCI R q (Book.title b)) l.

Definition byAuthor (R : JS.Runtime) (q : string) (l : list Book.t) : list Book.t :=
  filter (fun b => containsCI R q (Book.author b)) l.

Definition byCategory (g : string) (l : list Book.t) : list Book.t :=
  filter (fun b => match Book.category b with
                   | Some c => String.eqb c g
                   | None => false
                   end) l.

Definition stage (applies : string -> bool)
    (f : string -> list Book.t -> list Book.t) (q : string) (l : list Book.t) : list Book.t :=
  if applies q then f q l else l.

Definition filtered (R : JS.Runtime) (applies : string -> bool)
    (search author genre : string) (allBooks : list Book.t) : list Book.t :=
  stage applies byCategory genre
    (stage applies (byAuthor R) author
       (stage applies (byTitle R) search allBooks)).

Definition priceAscending (a b : Book.t) : Prop := (Book.price a <= Book.price b)%Q.
Definition priceDescending (a b : Book.t) : Prop := (Book.price b <= Book.price a)%Q.
Definition dateDescending (a b : Book.t) : Prop :=
  forall ta tb, Book.releaseDate a = Some ta -> Book.releaseDate b = Some tb -> tb <= ta.
Definition hasDate (b : Book.t) : Prop := Book.releaseDate b <> None.

(** [output] is [input] arranged by the sort key; any other key leaves
    the order alone.  [dated] tells of which lists descending by date is
    said: of any list ([anyList], the wording of the specification), or
    of the lists whose books all have a date ([allDated]). *)
Definition anyList (l : list Book.t) : Prop := True.
Definition allDated (l : list Book.t) : Prop := Forall hasDate l.

Definition Arranged (dated : list Book.t -> Prop) (key : string)
    (input output : list Book.t) : Prop :=
  if String.eqb key "priceAsc"
  then Permutation output input /\ StronglySorted priceAscending output
  else if String.eqb key "priceDesc"
  then Permutation output input /\ StronglySorted priceDescending output
  else if String.eqb key "releaseDate"
  then Permutation output input /\
       (dated input -> StronglySorted dateDescending output)
  else output = input.

Definition pageSize : nat := 8.

(** Page [p], counted from 1. *)
Definition pageOf (p : Z) (l : list Book.t) : list Book.t :=
  firstn pageSize (skipn (pageSize * Z.to_nat (p - 1)) l).

Definition IsView (R : JS.Runtime) (applies : string -> bool)
    (dated : list Book.t -> Prop) (allBooks : list Book.t)
    (search author genre key : string) (p : Z) (view : list Book.t) : Prop :=
  exists ordered,
    Arranged dated key (filtered R applies search author genre allBooks) ordered /\
    view = pageOf p ordered.

(** A filter string that has been entered runs its stage: the wording of
    the specification, with the empty string for "no filter". *)
Definition entered (q : string) : bool := JS.truthy q.

(** Only a filter string with something besides white space runs its
    stage: the guard of the code. *)
Definition nonBlank (R : JS.Runtime) (q : string) : bool := JS.truthy (JS.trim R q).

(** Nine books, one more than a page holds. *)
Definition nineBooks : list Book.t :=
  map (fun i => Book.mk (JS.ToString i) "Title" "Author" (inject_Z i) "cover" None None)
      [1; 2; 3; 4; 5; 6; 7; 8; 9].

(** Three books of which the second has no release date. *)
Definition threeDates : list Book.t :=
  [ Book.mk "a" "Title" "Author" 1 "cover" None (Some 1);
    Book.mk "b" "Title" "Author" 1 "cover" None None;
    Book.mk "c" "Title" "Author" 1 "cover" None (Some 2) ].

End CatalogSpec.

(** ** pages/BookDetail *)

Module BookDetail.

Record State : Type := mkState {
  book : option Book.t;
  related : list Book.t;
  wishlist : list Book.t
}.

Definition initial : State := mkState None [] [].

Definition setBook (v : option Book.t) (s : State) : State :=
  mkState v (related s) (wishlist s).
Definition setRelated (v : list Book.t) (s : State) : State :=
  mkState (book s) v (wishlist s).
Definition setWishlist (v : list Book.t) (s : State) : State :=
  mkState (book s) (related s) v.

(** [b.id === id] where [id] comes from the route and may be undefined. *)
Definition idIs (routeId : option string) (b : Book.t) : bool :=
  match routeId with
  | Some i => String.eqb (Book.id b) i
  | None => false
  end.

(** [a === b] on categories: two absent categories are both [undefined]
    and so equal. *)
Definition sameCategory (a b : option string) : bool :=
  match a, b with
  | Some x, Some y => String.eqb x y
  | None, None => true
  | _, _ => false
  end.

(** [loadBook], on the list [fetchFeaturedBooks()] resolved to. *)
Definition loadBookOn (allBooks : list Book.t) (routeId : option string) (s : State) : State :=
  let current := find (idIs routeId) allBooks in
  let s := setBook current s in
  match current with
  | Some cur =>
      let recs := filter (fun b => sameCategory (Book.category b) (Book.category cur)
                                   && negb (String.eqb (Book.id b) (Book.id cur)))
                         allBooks in
      setRelated recs s
  | None => s
  end.

Definition handleAddToWishlist (s : State) : State :=
  match book s with
  | Some bk =>
      match find (fun b => String.eqb (Book.id b) (Book.id bk)) (wishlist s) with
      | Some _ => s
      | None => setWishlist (wishlist s ++ [bk])%list s
      end
  | None => s
  end.

End BookDetail.

(** ** components/StarRating *)

Module StarRating.

(** The rating handed in is a number: [None] stands for NaN, which the
    review section passes when the average is "N/A". *)
Definition starIsFilled (rating : option Q) (star : Z) : bool :=
  match rating with
  | Some r => Qle_bool (inject_Z star) r
  | None => false
  end.

(** The five buttons, [true] for a filled star. *)
Definition render (rating : option Q) : list bool :=
  map (starIsFilled rating) [1; 2; 3; 4; 5].

(** [onClick] of a star: [editable && onChange && onChange(star)]. *)
Definition onClick {S} (editable : bool) (onChange : option (Z -> S -> S))
    (star : Z) (s : S) : S :=
  if editable
  then match onChange with
       | Some f => f star s
       | None => s
       end
  else s.

End StarRating.

(** The form of the review section as its render wires it: five stars
    that set [newRating], a text area that sets [newComment], and the
    submit handler. *)
Module ReviewForm.

Inductive Event : Type :=
| ClickStar (star : Z)
| TypeComment (text : string)
| Submit (now : Z) (user : ReviewSection.User) (bookId : string).

Definition step (R : JS.Runtime) (e : Event)
    (w : ReviewSection.State * ReviewService.Store)
  : ReviewSection.State * ReviewService.Store :=
  let '(s, store) := w in
  match e with
  | ClickStar star =>
      (StarRating.onClick true (Some ReviewSection.setNewRating) star s, store)
  | TypeComment text => (ReviewSection.setNewComment text s, store)
  | Submit now user bookId =>
      let out := ReviewSection.handleSubmit R now user bookId store s in
      (ReviewSection.state out, ReviewSection.store out)
  end.

(** A click can only come from one of the five stars. *)
Definition possible (e : Event) : Prop :=
  match e with
  | ClickStar star => In star [1; 2; 3; 4; 5]
  | _ => True
  end.

Definition run (R : JS.Runtime) (events : list Event)
    (w : ReviewSection.State * ReviewService.Store)
  : ReviewSection.State * ReviewService.Store :=
  fold_left (fun w e => step R e w) events w.

End ReviewForm.

(** ** components/StripePayment: the card form with its own state *)

Module StripeForm.

Record State : Type := mkState {
  clientSecret : option string;
  loading : bool;
  error : string
}.

Definition initial : State := mkState None false "".

Definition setClientSecret (v : option string) (s : State) : State :=
  mkState v (loading s) (error s).
Definition setLoading (v : bool) (s : State) : State :=
  mkState (clientSecret s) v (error s).
Definition setError (v : string) (s : State) : State :=
  mkState (clientSecret s) (loading s) v.

(** [initializePayment]: [created] is the client secret the service
    answered with, [None] when [createPaymentIntent] threw. *)
Definition initializePayment (created : option string) (s : State) : State :=
  match created with
  | Some secret => setClientSecret (Some secret) s
  | None => setError "Failed to initialize payment." s
  end.

(** What [stripe.confirmCardPayment] resolved to.  An error may or may
    not carry a message. *)
Inductive Confirmed : Type :=
| WithError (message : option string)
| WithIntent (status : string)
| WithNothing.

Definition truthyOpt (o : option string) : bool :=
  match o with
  | Some v => JS.truthy v
  | None => false
  end.

(** [handleSubmit] on the form state [s] and the state [w] of the page
    that owns the callbacks.  [stripe] and [elements] tell whether the
    two hooks gave an object, [hasCard] whether [getElement] found the
    card, [verified] whether [verifyPayment] resolved. *)
Definition handleSubmit {W} (onSuccess onFailure : W -> W)
    (stripe elements hasCard : bool) (result : Confirmed) (verified : bool)
    (sw : State * W) : State * W :=
  let '(s, w) := sw in
  if negb stripe || negb elements || negb (truthyOpt (clientSecret s)) then (s, w)
  else
    let s := setLoading true s in
    let s := setError "" s in
    if negb hasCard then (s, w)
    else
      match result with
      | WithError message =>
          let s := setError (if truthyOpt message
                             then match message with Some m => m | None => "Payment failed." end
                             else "Payment failed.") s in
          let s := setLoading false s in
          (s, onFailure w)
      | WithIntent status =>
          if String.eqb status "succeeded"
          then if verified
               then (setLoading false s, onSuccess w)
               else (s, w)
          else (s, w)
      | WithNothing => (s, w)
      end.

(** The submit button carries [disabled={loading || !stripe}]. *)
Definition submitDisabled (stripe : bool) (s : State) : bool :=
  loading s || negb stripe.

End StripeForm.

(** ** Regular expressions, as far as the sources use them *)

Module RegExp.

(** The fragment the e-mail pattern is written in: character classes,
    sequence and repetition (alternation and the two constants serve the
    matcher).  A pattern without the [u] flag reads its input as UTF-16
    code units, so a class is a test on a code unit. *)
Inductive t : Type :=
| Never
| Empty
| Class (p : N -> bool)
| Seq (r1 r2 : t)
| Or (r1 r2 : t)
| Star (r : t).

(** [r+] *)
Definition Plus (r : t) : t := Seq r (Star r).

(** The sequences of code units a pattern matches, from first to last. *)
Inductive Matches : t -> list N -> Prop :=
| MEmpty : Matches Empty []
| MClass p c : p c = true -> Matches (Class p) [c]
| MSeq r1 r2 s1 s2 : Matches r1 s1 -> Matches r2 s2 -> Matches (Seq r1 r2) (s1 ++ s2)%list
| MOrL r1 r2 s : Matches r1 s -> Matches (Or r1 r2) s
| MOrR r1 r2 s : Matches r2 s -> Matches (Or r1 r2) s
| MStarNil r : Matches (Star r) []
| MStarCons r s1 s2 :
    Matches r s1 -> Matches (Star r) s2 -> Matches (Star r) (s1 ++ s2)%list.

Fixpoint nullable (r : t) : bool :=
  match r with
  | Never => false
  | Empty => true
  | Class _ => false
  | Seq r1 r2 => nullable r1 && nullable r2
  | Or r1 r2 => nullable r1 || nullable r2
  | Star _ => true
  end.

Fixpoint derive (c : N) (r : t) : t :=
  match r with
  | Never => Never
  | Empty => Never
  | Class p => if p c then Empty else Never
  | Seq r1 r2 =>
      if nullable r1
      then Or (Seq (derive c r1) r2) (derive c r2)
      else Seq (derive c r1) r2
  | Or r1 r2 => Or (derive c r1) (derive c r2)
  | Star r1 => Seq (derive c r1) (Star r1)
  end.

(** [/^r$/.test(s)] on the code units of [s]: the whole of the sequence
    matches [r]. *)
Fixpoint test (r : t) (s : list N) : bool :=
  match s with
  | [] => nullable r
  | c :: s' => test (derive c r) s'
  end.

Definition isChar (x : N) (c : N) : bool := N.eqb c x.

(** [.]: any code unit but a line terminator (LF, CR, U+2028, U+2029). *)
Definition dot (c : N) : bool :=
  negb (N.eqb c 10 || N.eqb c 13 || N.eqb c 8232 || N.eqb c 8233).

End RegExp.

(** The pattern [/^[^\\s@]+@[^\\s@]+\\.[^\\s@]+$/] of the sign-up page and
    of the two contact-form scripts.  In a pattern literal [\\] is one
    backslash character: the class [[^\\s@]] excludes backslash, the
    letter s and the at sign, and [\\.] is a backslash followed by any
    character but a line terminator. *)
Module EmailPattern.

(** The code units of the backslash, the letter s and the at sign. *)
Definition backslash : N := 92.
Definition letterS : N := 115.
Definition atSign : N := 64.

Definition classChar (c : N) : bool :=
  negb (N.eqb c backslash || N.eqb c letterS || N.eqb c atSign).

Definition emailPattern : RegExp.t :=
  RegExp.Seq (RegExp.Plus (RegExp.Class classChar))
    (RegExp.Seq (RegExp.Class (RegExp.isChar atSign))
       (RegExp.Seq (RegExp.Plus (RegExp.Class classChar))
          (RegExp.Seq (RegExp.Class (RegExp.isChar backslash))
             (RegExp.Seq (RegExp.Class RegExp.dot)
                (RegExp.Plus (RegExp.Class classChar)))))).

(** [emailPattern.test(s)] *)
Definition test (R : JS.Runtime) (s : string) : bool :=
  RegExp.test emailPattern (JS.codeUnits R s).

End EmailPattern.

(** ** services/authService *)

Module AuthService.

(** What a parameter receives at a call: a string, some object, or
    [undefined] when the call passes fewer arguments. *)
Inductive Arg : Type :=
| Str (s : string)
| Obj
| Undefined.

Record AuthUser : Type := mkUser {
  id : string;
  name : Arg;
  email : Arg
}.

Record AuthResponse : Type := mkResponse {
  token : string;
  user : AuthUser
}.

(** [x === "literal"] *)
Definition isString (literal : string) (x : Arg) : bool :=
  match x with
  | Str v => String.eqb v literal
  | _ => false
  end.

(** A promise that settles: [inl] the value it resolves to, [inr] the
    message of the error it rejects with. *)
Definition loginUser (email password : Arg) : AuthResponse + string :=
  if isString "user@bookhaven.com" email && isString "password" password
  then inl (mkResponse "mock-jwt-token" (mkUser "1" (Str "John Doe") email))
  else inr "Invalid credentials".

Definition registerUser (name email password : Arg) : AuthResponse + string :=
  inl (mkResponse "mock-jwt-token" (mkUser "2" name email)).

Definition loginWithGoogle : AuthResponse + string :=
  inl (mkResponse "mock-google-oauth-token"
         (mkUser "3" (Str "Google User") (Str "googleuser@gmail.com"))).

End AuthService.

(** ** pages/Login *)

Module Login.

Record Form : Type := mkForm { email : string; password : string }.

(** What a handler leaves behind: the error of the page, the payload it
    dispatched with [setUser], the route it navigated to. *)
Record Outcome : Type := mkOutcome {
  error : string;
  dispatched : option AuthService.AuthResponse;
  navigated : option string
}.

(** [handleSubmit] calls [loginUser(form)]: the form object is the first
    argument and there is no second one. *)
Definition handleSubmit (form : Form) (error0 : string) : Outcome :=
  match AuthService.loginUser AuthService.Obj AuthService.Undefined with
  | inl user => mkOutcome error0 (Some user) (Some "/")
  | inr _ => mkOutcome "Invalid email or password" None None
  end.

Definition handleGoogleLogin (error0 : string) : Outcome :=
  match AuthService.loginWithGoogle with
  | inl user => mkOutcome error0 (Some user) (Some "/")
  | inr _ => mkOutcome "Google login failed or not configured" None None
  end.

End Login.

(** ** pages/Signup *)

Module Signup.

Record Form : Type := mkForm { name : string; email : string; password : string }.

Record Outcome : Type := mkOutcome {
  error : string;
  registerCalls : nat;
  dispatched : option AuthService.AuthResponse;
  navigated : option string
}.

(** [handleSubmit] calls [registerUser(form)]: the form object is the
    first argument and the other two are missing. *)
Definition handleSubmit (R : JS.Runtime) (form : Form) (error0 : string) : Outcome :=
  if negb (EmailPattern.test R (email form)) then
    mkOutcome "Invalid email address" 0 None None
  else
    match AuthService.registerUser AuthService.Obj AuthService.Undefined
            AuthService.Undefined with
    | inl user => mkOutcome error0 1 (Some user) (Some "/account")
    | inr _ => mkOutcome "Registration failed. Try again." 1 None None
    end.

End Signup.

(** ** js/main.js: the contact form *)

Module MainContact.

Record Status : Type := mkStatus { text : string; color : string }.

(** A submission sets the status at once; an accepted one sets it again
    a second later and resets the form. *)
Record Outcome : Type := mkOutcome {
  atOnce : Status;
  later : option Status;
  formReset : bool
}.

Definition onSubmit (R : JS.Runtime) (name email message : string) : Outcome :=
  if negb (JS.truthy name) || negb (JS.truthy email) || negb (JS.truthy message) then
    mkOutcome (mkStatus "Please fill in all fields." "red") None false
  else if negb (EmailPattern.test R email) then
    mkOutcome (mkStatus "Please enter a valid email address." "red") None false
  else
    mkOutcome (mkStatus "Sending..." "#007acc")
              (Some (mkStatus "Message sent successfully!" "green")) true.

End MainContact.

(** ** js/deploy-check.js, second script: the contact form with field marks *)

Module MarkedContact.

Record Outcome : Type := mkOutcome {
  nameMarked : bool;
  emailMarked : bool;
  messageMarked : bool;
  text : string;
  classes : list string;
  formReset : bool
}.

Definition blank (R : JS.Runtime) (v : string) : bool := negb (JS.truthy (JS.trim R v)).

Definition onSubmit (R : JS.Runtime) (name email message : string) : Outcome :=
  let valid := true in
  let text := "" in
  let classes := ["form-message"] in
  (* the three required fields, in turn *)
  let nameMarked := blank R name in
  let valid := if blank R name then false else valid in
  let emailMarked := blank R email in
  let valid := if blank R email then false else valid in
  let messageMarked := blank R message in
  let valid := if blank R message then false else valid in
  (* the format of the e-mail *)
  let badFormat := JS.truthy email && negb (EmailPattern.test R email) in
  let emailMarked := if badFormat then true else emailMarked in
  let valid := if badFormat then false else valid in
  let text := if badFormat then "Please enter a valid email address." else text in
  let classes := if badFormat then (classes ++ ["error"])%list else classes in
  if valid then
    mkOutcome nameMarked emailMarked messageMarked
              "Message sent successfully!" (classes ++ ["success"])%list true
  else if negb (JS.truthy text) then
    mkOutcome nameMarked emailMarked messageMarked
              "Please fill out all required fields." (classes ++ ["error"])%list false
  else
    mkOutcome nameMarked emailMarked messageMarked text classes false.

End MarkedContact.

(** ** hooks/useApi *)

Module UseApi.

Section Hook.
Context {T : Type}.

Record State : Type := mkState {
  data : option T;
  loading : bool;
  error : option string
}.

(** [request]: [settled] is what awaiting [apiFunc(...args)] produced,
    [inl] the result or [inr] the [message] of the error thrown, which
    an error may lack.  The call gives back the result or throws the
    error again. *)
Definition request (settled : T + option string) (s : State)
  : State * (T + option string) :=
  let s := mkState (data s) true (error s) in
  let s := mkState (data s) (loading s) None in
  match settled with
  | inl result =>
      let s := mkState (Some result) (loading s) (error s) in
      (mkState (data s) false (error s), inl result)
  | inr message =>
      let shown :=
        match message with
        | Some m => if JS.truthy m then m else "An error occurred"
        | None => "An error occurred"
        end in
      let s := mkState (data s) (loading s) (Some shown) in
      (mkState (data s) false (error s), inr message)
  end.

End Hook.

Arguments State : clear implicits.

End UseApi.

(** ** Tactics *)

(** On a closed string of ASCII characters the library functions of any
    runtime are replaced by the values ECMAScript fixes for them. *)
Ltac ascii_runtime R :=
  repeat match goal with
  | |- context [JS.trim R ?s] =>
      let v := eval vm_compute in (AsciiText.trim s) in
      replace (JS.trim R s) with v by (symmetry; exact (JS.trim_ascii R s eq_refl))
  | |- context [JS.toUpperCase R ?s] =>
      let v := eval vm_compute in (AsciiText.toUpperCase s) in
      replace (JS.toUpperCase R s) with v by (symmetry; exact (JS.toUpperCase_ascii R s eq_refl))
  | |- context [JS.toLowerCase R ?s] =>
      let v := eval vm_compute in (AsciiText.toLowerCase s) in
      replace (JS.toLowerCase R s) with v by (symmetry; exact (JS.toLowerCase_ascii R s eq_refl))
  | |- context [JS.codeUnits R ?s] =>
      let v := eval vm_compute in (AsciiText.codeUnits s) in
      replace (JS.codeUnits R s) with v by (symmetry; exact (JS.codeUnits_ascii R s eq_refl))
  end.

(** The catalog page on the four mock books, whose titles and authors
    are ASCII, with filter strings that are ASCII: every runtime computes
    the same page. *)
Ltac load_mock_books R :=
  unfold Catalog.loadBooks, Catalog.loadBooksOn, BookService.fetchFeaturedBooks;
  cbn [Catalog.search Catalog.author Catalog.genre Catalog.sort Catalog.page
       Catalog.books Catalog.error Catalog.loading
       Catalog.setSearch Catalog.setAuthor Catalog.setGenre Catalog.setSort
       Catalog.setPage Catalog.setLoading Catalog.setError Catalog.setBooks
       Catalog.initial];
  ascii_runtime R;
  cbn [JS.truthy filter Book.title Book.author];
  ascii_runtime R.


(* ================================================================== *)
(** * Part II: the properties *)
(* ================================================================== *)

(** ** Binary64 numbers *)

Lemma SFcompare_refl_finite (s : bool) (m : positive) (e : Z) :
  SFcompare (S754_finite s m e) (S754_finite s m e) = Some Eq.
Proof.
  simpl. destruct s; rewrite Z.compare_refl, Pos.compare_cont_refl; reflexivity.
Qed.

(** Taking nothing off a finite number leaves the number. *)
Lemma sub_mul_zero (x : float) :
  JS.isFinite x = true -> JS.sameNumber (x - x * 0)%float x = true.
Proof.
  unfold JS.isFinite, JS.sameNumber. intros Hfin.
  rewrite eqb_spec, sub_spec, mul_spec.
  change (Prim2SF 0) with (S754_zero false).
  destruct (Prim2SF x) as [sx | sx | | sx m e]; try discriminate Hfin.
  - destruct sx; reflexivity.
  - change (SF64mul (S754_finite sx m e) (S754_zero false))
      with (S754_zero (xorb sx false)).
    change (SF64sub (S754_finite sx m e) (S754_zero (xorb sx false)))
      with (S754_finite sx m e).
    unfold SFeqb. rewrite SFcompare_refl_finite. reflexivity.
Qed.

(** ** The cart page: discount codes *)

Lemma applyCode_match (R : JS.Runtime) (code : string) (s : Cart.State) :
  JS.toUpperCase R (JS.trim R code) = "SAVE10" ->
  Cart.applyCode R code s = Cart.mkState code 0.1%float "".
Proof.
  intros Hn. unfold Cart.applyCode, Cart.handleApplyDiscount.
  cbn [Cart.discountCode Cart.setDiscountCode].
  rewrite Hn. reflexivity.
Qed.

Lemma applyCode_mismatch (R : JS.Runtime) (code : string) (s : Cart.State) :
  JS.toUpperCase R (JS.trim R code) <> "SAVE10" ->
  Cart.applyCode R code s = Cart.mkState code 0%float "Invalid discount code".
Proof.
  intros Hn. unfold Cart.applyCode, Cart.handleApplyDiscount.
  cbn [Cart.discountCode Cart.setDiscountCode].
  destruct (String.eqb_spec (JS.toUpperCase R (JS.trim R code)) "SAVE10") as [E | _].
  - contradiction.
  - reflexivity.
Qed.

Lemma normal_form_SAVE10 (R : JS.Runtime) : JS.toUpperCase R (JS.trim R "SAVE10") = "SAVE10".
Proof. ascii_runtime R. reflexivity. Qed.

Lemma normal_form_save10_lower (R : JS.Runtime) : JS.toUpperCase R (JS.trim R "save10") = "SAVE10".
Proof. ascii_runtime R. reflexivity. Qed.

Lemma normal_form_save10_padded (R : JS.Runtime) :
  JS.toUpperCase R (JS.trim R " save10 ") = "SAVE10".
Proof. ascii_runtime R. reflexivity. Qed.

Lemma normal_form_empty (R : JS.Runtime) : JS.toUpperCase R (JS.trim R "") = "".
Proof. ascii_runtime R. reflexivity. Qed.

Lemma normal_form_HALFOFF (R : JS.Runtime) : JS.toUpperCase R (JS.trim R "HALFOFF") = "HALFOFF".
Proof. ascii_runtime R. reflexivity. Qed.

(** C1, as the claim is worded, fails in three ways, on every runtime.
    (1) The code "save10" is non-empty and is not the string "SAVE10",
    yet pressing Apply on it grants the discount and shows no error: on
    a cart of one book at 10 the total becomes 9 instead of the subtotal
    10.  (2) With "SAVE10" the total is [S - S * 0.1] in binary64
    arithmetic, which is not 0.9 x S: on a cart of one book at 13 the
    total is not the number [0.9 * 13], nor is its exact value 11.7.
    (3) With a refused code the total is [S - S * 0], which is not S when
    S is not finite: a line whose quantity is NaN (what [parseInt] gives
    for an emptied quantity field) makes the subtotal and the total NaN,
    and NaN equals no number. *)
Lemma C1_claimed_totals_fail :
  (forall R : JS.Runtime,
     let cart := [CartSlice.mkItem "1" "Book One" 10 1] in
     let s' := Cart.applyCode R "save10" Cart.initial in
     "save10" <> "SAVE10" /\ "save10" <> "" /\
     Cart.subtotal cart = 10%float /\
     Cart.total cart s' = 9%float /\
     JS.sameNumber (Cart.total cart s') (Cart.subtotal cart) = false /\
     Cart.error s' = "" /\
     Cart.error s' <> "Invalid discount code") /\
  (forall R : JS.Runtime,
     let cart := [CartSlice.mkItem "1" "Book One" 13 1] in
     let s' := Cart.applyCode R "SAVE10" Cart.initial in
     Cart.subtotal cart = 13%float /\
     JS.sameNumber (Cart.total cart s') (0.9 * Cart.subtotal cart)%float = false /\
     JS.exactIs (Cart.total cart s') ((9 # 10) * 13) = false /\
     Cart.error s' = "") /\
  (forall R : JS.Runtime,
     let cart := [CartSlice.mkItem "1" "Book One" 10 nan] in
     let s' := Cart.applyCode R "HALFOFF" Cart.initial in
     "HALFOFF" <> "SAVE10" /\ "HALFOFF" <> "" /\
     JS.sameNumber (Cart.total cart s') (Cart.subtotal cart) = false /\
     Cart.error s' = "Invalid discount code").
Proof.
  split; [| split]; intros R; cbv zeta.
  - rewrite (applyCode_match R "save10") by apply normal_form_save10_lower.
    split; [discriminate |].
    split; [discriminate |].
    split; [reflexivity |].
    split; [reflexivity |].
    split; [reflexivity |].
    split; [reflexivity | discriminate].
  - rewrite (applyCode_match R "SAVE10") by apply normal_form_SAVE10.
    split; [reflexivity |].
    split; [reflexivity |].
    split; [reflexivity |].
    reflexivity.
  - rewrite (applyCode_mismatch R "HALFOFF")
      by (rewrite normal_form_HALFOFF; discriminate).
    split; [discriminate |].
    split; [discriminate |].
    split; [reflexivity |].
    reflexivity.
Qed.

(** C1, amended: for every runtime, every cart and every state of the
    cart page, with S the subtotal the page computes: applying the code
    "SAVE10" yields total = S - S * 0.1 in binary64 arithmetic and no
    error, and applying a code whose trimmed, upper-cased form is not
    "SAVE10" yields the error "Invalid discount code" and total =
    S - S * 0, which is S whenever S is finite. *)
Theorem C1_apply_discount_total :
  forall (R : JS.Runtime) (cart : list CartSlice.CartItem) (s : Cart.State) (code : string),
    (code = "SAVE10" ->
       Cart.total cart (Cart.applyCode R code s)
       = (Cart.subtotal cart - Cart.subtotal cart * 0.1)%float /\
       Cart.error (Cart.applyCode R code s) = "") /\
    (JS.toUpperCase R (JS.trim R code) <> "SAVE10" ->
       Cart.total cart (Cart.applyCode R code s)
       = (Cart.subtotal cart - Cart.subtotal cart * 0)%float /\
       (JS.isFinite (Cart.subtotal cart) = true ->
        JS.sameNumber (Cart.total cart (Cart.applyCode R code s)) (Cart.subtotal cart) = true) /\
       Cart.error (Cart.applyCode R code s) = "Invalid discount code").
Proof.
  intros R cart s code. split.
  - intros ->. rewrite applyCode_match by apply normal_form_SAVE10.
    split; reflexivity.
  - intros Hn. rewrite applyCode_mismatch by assumption.
    split; [reflexivity |]. split; [| reflexivity].
    intros Hfin. apply sub_mul_zero. exact Hfin.
Qed.

Lemma C1_apply_discount_total_witness :
  let cart := [CartSlice.mkItem "1" "Book One" 10 2; CartSlice.mkItem "2" "Book Two" 2.5 1] in
  (Cart.total cart (Cart.applyCode JS.asciiRuntime "SAVE10" Cart.initial)
   = (Cart.subtotal cart - Cart.subtotal cart * 0.1)%float /\
   Cart.error (Cart.applyCode JS.asciiRuntime "SAVE10" Cart.initial) = "") /\
  (Cart.total cart (Cart.applyCode JS.asciiRuntime "HALFOFF" Cart.initial)
   = (Cart.subtotal cart - Cart.subtotal cart * 0)%float /\
   JS.sameNumber (Cart.total cart (Cart.applyCode JS.asciiRuntime "HALFOFF" Cart.initial))
                 (Cart.subtotal cart) = true /\
   Cart.error (Cart.applyCode JS.asciiRuntime "HALFOFF" Cart.initial) = "Invalid discount code").
Proof.
  cbv zeta. split.
  - apply (C1_apply_discount_total JS.asciiRuntime _ Cart.initial "SAVE10"). reflexivity.
  - destruct (C1_apply_discount_total JS.asciiRuntime
                [CartSlice.mkItem "1" "Book One" 10 2; CartSlice.mkItem "2" "Book Two" 2.5 1]
                Cart.initial "HALFOFF") as [_ Hother].
    destruct Hother as [Ht [Hs He]]; [vm_compute; discriminate |].
    split; [exact Ht |]. split; [apply Hs; reflexivity | exact He].
Defined.

(** C10: the code is normalised before it is matched, on every runtime.
    Every string whose trimmed, upper-cased form is "SAVE10" (" save10 "
    is one) sets the discount to 0.1, so that the total is the subtotal
    less a tenth of it, and clears the error; every other string (the
    empty string is one) sets the discount to 0 and the error to
    "Invalid discount code". *)
Theorem C10_discount_code_is_normalised :
  forall (R : JS.Runtime) (code : string) (s : Cart.State),
    (JS.toUpperCase R (JS.trim R code) = "SAVE10" ->
       Cart.discount (Cart.applyCode R code s) = 0.1%float /\
       Cart.error (Cart.applyCode R code s) = "" /\
       forall cart,
         Cart.total cart (Cart.applyCode R code s)
         = (Cart.subtotal cart - Cart.subtotal cart * 0.1)%float) /\
    (JS.toUpperCase R (JS.trim R code) <> "SAVE10" ->
       Cart.discount (Cart.applyCode R code s) = 0%float /\
       Cart.error (Cart.applyCode R code s) = "Invalid discount code") /\
    JS.toUpperCase R (JS.trim R " save10 ") = "SAVE10" /\
    JS.toUpperCase R (JS.trim R "") <> "SAVE10".
Proof.
  intros R code s. repeat split.
  - rewrite applyCode_match by assumption. reflexivity.
  - rewrite applyCode_match by assumption. reflexivity.
  - intros cart. rewrite applyCode_match by assumption. reflexivity.
  - rewrite applyCode_mismatch by assumption. reflexivity.
  - rewrite applyCode_mismatch by assumption. reflexivity.
  - apply normal_form_save10_padded.
  - rewrite normal_form_empty. discriminate.
Qed.

Lemma C10_discount_code_is_normalised_witness :
  (Cart.discount (Cart.applyCode JS.asciiRuntime " save10 "
                    (Cart.mkState "x" 0 "Invalid discount code")) = 0.1%float /\
   Cart.error (Cart.applyCode JS.asciiRuntime " save10 "
                 (Cart.mkState "x" 0 "Invalid discount code")) = "") /\
  (Cart.discount (Cart.applyCode JS.asciiRuntime "" (Cart.mkState "x" 0.1 "")) = 0%float /\
   Cart.error (Cart.applyCode JS.asciiRuntime "" (Cart.mkState "x" 0.1 ""))
   = "Invalid discount code").
Proof.
  split.
  - destruct (C10_discount_code_is_normalised JS.asciiRuntime " save10 "
                (Cart.mkState "x" 0 "Invalid discount code")) as [Hyes _].
    destruct (Hyes eq_refl) as [Hd [He _]]. split; assumption.
  - destruct (C10_discount_code_is_normalised JS.asciiRuntime ""
                (Cart.mkState "x" 0.1 "")) as [_ [Hno _]].
    apply Hno. vm_compute. discriminate.
Defined.

(** ** The cart slice: add, then remove *)

Lemma filter_keeps_other_ids (itemId : string) (l : list CartSlice.CartItem) :
  ~ In itemId (map CartSlice.id l) ->
  filter (fun i => negb (CartSlice.hasId itemId i)) l = l.
Proof.
  induction l as [| x l IH]; intros Hfresh.
  - reflexivity.
  - simpl in *. unfold CartSlice.hasId at 1.
    destruct (String.eqb_spec (CartSlice.id x) itemId) as [E | NE].
    + exfalso. apply Hfresh. left. exact E.
    + simpl. f_equal. apply IH. intros Hin. apply Hfresh. right. exact Hin.
Qed.

Lemma existsb_hasId_fresh (itemId : string) (l : list CartSlice.CartItem) :
  ~ In itemId (map CartSlice.id l) ->
  existsb (CartSlice.hasId itemId) l = false.
Proof.
  induction l as [| x l IH]; intros Hfresh.
  - reflexivity.
  - simpl in *. unfold CartSlice.hasId at 1.
    destruct (String.eqb_spec (CartSlice.id x) itemId) as [E | NE].
    + exfalso. apply Hfresh. left. exact E.
    + simpl. apply IH. intros Hin. apply Hfresh. right. exact Hin.
Qed.

Lemma add_then_remove_fresh (state : CartSlice.CartState) (item : CartSlice.CartItem) :
  ~ In (CartSlice.id item) (map CartSlice.id (CartSlice.items state)) ->
  CartSlice.items
    (CartSlice.cartReducer
       (CartSlice.cartReducer state (CartSlice.addToCart item))
       (CartSlice.removeFromCart (CartSlice.id item)))
  = CartSlice.items state.
Proof.
  intros Hfresh. destruct state as [items]. simpl in *.
  rewrite (existsb_hasId_fresh _ _ Hfresh). simpl.
  rewrite filter_app. simpl.
  unfold CartSlice.hasId at 2. rewrite String.eqb_refl. simpl.
  rewrite app_nil_r. apply filter_keeps_other_ids. exact Hfresh.
Qed.

(** C4, as the claim is worded, fails: the cart holding one book has
    distinct ids; adding that same book again and then removing its id
    leaves the empty cart, which is no rearrangement of the prior list. *)
Lemma C4_add_remove_of_present_id_empties :
  let item := CartSlice.mkItem "1" "Book One" 10 1 in
  let state := CartSlice.mkState [item] in
  let after := CartSlice.cartReducer
                 (CartSlice.cartReducer state (CartSlice.addToCart item))
                 (CartSlice.removeFromCart (CartSlice.id item)) in
  NoDup (map CartSlice.id (CartSlice.items state)) /\
  CartSlice.items after = [] /\
  ~ Permutation (CartSlice.items after) (CartSlice.items state).
Proof.
  cbv zeta. split; [| split].
  - simpl. constructor; [intros [] | constructor].
  - reflexivity.
  - intros HP. apply Permutation_length in HP. discriminate HP.
Qed.

(** C4, amended: for every cart state whose items all have distinct ids
    and every item whose id is not yet in the cart, addToCart with that
    item followed by removeFromCart with its id gives back the prior item
    list: the very same list, hence also the same up to reordering. *)
Theorem C4_add_then_remove_restores :
  forall (state : CartSlice.CartState) (item : CartSlice.CartItem),
    NoDup (map CartSlice.id (CartSlice.items state)) ->
    ~ In (CartSlice.id item) (map CartSlice.id (CartSlice.items state)) ->
    let after := CartSlice.cartReducer
                   (CartSlice.cartReducer state (CartSlice.addToCart item))
                   (CartSlice.removeFromCart (CartSlice.id item)) in
    CartSlice.items after = CartSlice.items state /\
    Permutation (CartSlice.items after) (CartSlice.items state).
Proof.
  intros state item _ Hfresh after. subst after.
  rewrite (add_then_remove_fresh state item Hfresh).
  split; [reflexivity | apply Permutation_refl].
Qed.

Lemma C4_add_then_remove_restores_witness :
  let state := CartSlice.mkState
                 [CartSlice.mkItem "1" "Book One" 10 1; CartSlice.mkItem "2" "Book Two" 12 3] in
  let item := CartSlice.mkItem "3" "Book Three" 7 1 in
  let after := CartSlice.cartReducer
                 (CartSlice.cartReducer state (CartSlice.addToCart item))
                 (CartSlice.removeFromCart (CartSlice.id item)) in
  CartSlice.items after = CartSlice.items state /\
  Permutation (CartSlice.items after) (CartSlice.items state).
Proof.
  cbv zeta. apply C4_add_then_remove_restores.
  - simpl. constructor.
    + simpl. intros [H | []]. discriminate H.
    + constructor; [intros [] | constructor].
  - simpl. intros [H | [H | []]]; discriminate H.
Defined.

(** ** The checkout page: payment callbacks *)

Lemma fire_is_a_callback (e : CheckoutPage.Event) (w : Checkout.World) :
  CheckoutPage.fire e w =
  match CheckoutPage.invoked e with
  | CheckoutPage.Success => Checkout.handleSuccess w
  | CheckoutPage.Failure => Checkout.handleFailure w
  | CheckoutPage.NoCallback => w
  end.
Proof.
  destruct e as [ready hasCard result verified | captured |]; simpl.
  - unfold StripePayment.handleSubmit.
    destruct ready, hasCard, result as [| status |], verified; simpl; try reflexivity;
      destruct (String.eqb status "succeeded"); reflexivity.
  - destruct captured; reflexivity.
  - reflexivity.
Qed.

(** C5: on the checkout page, with either widget, every invocation of the
    success callback dispatches clearCart (and nothing else), which
    empties the cart, and shows the confirmation; every invocation of
    the failure callback shows the error, dispatches nothing and leaves
    the cart as it was; and every run of a handler of the Stripe form or
    of the PayPal buttons does one of the two, or nothing. *)
Theorem C5_payment_callbacks :
  forall (w : Checkout.World),
    (CartSlice.items (Checkout.cart (Checkout.handleSuccess w)) = [] /\
     Checkout.dispatched (Checkout.handleSuccess w)
       = (Checkout.dispatched w ++ [CartSlice.clearCart])%list /\
     Checkout.confirmation (Checkout.handleSuccess w)
       = "Order confirmed! An invoice has been sent to your email." /\
     Checkout.error (Checkout.handleSuccess w) = "") /\
    (Checkout.cart (Checkout.handleFailure w) = Checkout.cart w /\
     Checkout.dispatched (Checkout.handleFailure w) = Checkout.dispatched w /\
     Checkout.error (Checkout.handleFailure w) = "Payment failed. Please try again." /\
     Checkout.confirmation (Checkout.handleFailure w) = "") /\
    (forall e : CheckoutPage.Event,
       match CheckoutPage.invoked e with
       | CheckoutPage.Success => CheckoutPage.fire e w = Checkout.handleSuccess w
       | CheckoutPage.Failure => CheckoutPage.fire e w = Checkout.handleFailure w
       | CheckoutPage.NoCallback => CheckoutPage.fire e w = w
       end) /\
    CheckoutPage.invoked (CheckoutPage.StripeSubmit true true (StripePayment.WithIntent "succeeded") true)
      = CheckoutPage.Success /\
    CheckoutPage.invoked (CheckoutPage.StripeSubmit true true StripePayment.WithError true)
      = CheckoutPage.Failure /\
    CheckoutPage.invoked (CheckoutPage.PayPalApprove true) = CheckoutPage.Success /\
    CheckoutPage.invoked (CheckoutPage.PayPalApprove false) = CheckoutPage.Failure /\
    CheckoutPage.invoked CheckoutPage.PayPalError = CheckoutPage.Failure.
Proof.
  intros w. split; [| split; [| split]].
  - repeat split.
  - repeat split.
  - intros e. rewrite fire_is_a_callback.
    destruct (CheckoutPage.invoked e); reflexivity.
  - repeat split.
Qed.

(** ** The review section: what may be submitted *)

(** C7, as the claim is worded, fails, on every runtime: a visitor who
    is not logged in and submits with rating 0 and an empty comment is
    told to log in, not to provide a rating and a comment.  The service
    is not called. *)
Lemma C7_not_logged_in_sees_login_message :
  let user := ReviewSection.mkUser None None in
  let s := ReviewSection.mkState [] "" 0 false "" in
  (ReviewSection.newRating s = 0 /\ ReviewSection.newComment s = "") /\
  forall R : JS.Runtime,
    let out := ReviewSection.handleSubmit R 1700000000000 user "1" ReviewService.mockReviews s in
    ReviewSection.submitCalls out = [] /\
    ReviewSection.message (ReviewSection.state out) = "You must be logged in to leave a review." /\
    ReviewSection.message (ReviewSection.state out) <> "Please provide both a rating and a comment.".
Proof.
  cbv zeta. split; [split; reflexivity |].
  intros R. repeat split. discriminate.
Qed.

(** C7, amended: on every runtime, for every submission where the rating
    is 0 or the comment is empty after trimming (what [trim] leaves of it
    is the empty string), the handler makes no call to
    submitReview and leaves the review store as it was; and when the
    user is logged in (the token is a non-empty string) it shows
    "Please provide both a rating and a comment." *)
Theorem C7_incomplete_review_is_not_submitted :
  forall (R : JS.Runtime) (now : Z) (user : ReviewSection.User) (bookId : string)
         (store0 : ReviewService.Store) (s : ReviewSection.State),
    ReviewSection.newRating s = 0 \/ JS.trim R (ReviewSection.newComment s) = "" ->
    let out := ReviewSection.handleSubmit R now user bookId store0 s in
    ReviewSection.submitCalls out = [] /\
    ReviewSection.store out = store0 /\
    (ReviewSection.truthyOpt (ReviewSection.token user) = true ->
     ReviewSection.message (ReviewSection.state out)
       = "Please provide both a rating and a comment.").
Proof.
  intros R now user bookId store0 s Hbad out. subst out.
  unfold ReviewSection.handleSubmit.
  assert (Hguard : ((ReviewSection.newRating s =? 0)%Z
                    || String.eqb (JS.trim R (ReviewSection.newComment s)) "") = true).
  { destruct Hbad as [Hr | Hc].
    - rewrite Hr. reflexivity.
    - rewrite Hc. apply orb_true_r. }
  rewrite Hguard.
  destruct (ReviewSection.truthyOpt (ReviewSection.token user)); simpl.
  - repeat split.
  - repeat split. intros H. discriminate H.
Qed.

Lemma C7_incomplete_review_is_not_submitted_witness :
  let user := ReviewSection.mkUser (Some "John Doe") (Some "mock-jwt-token") in
  let s := ReviewSection.mkState [] "   " 4 false "" in
  let out := ReviewSection.handleSubmit JS.asciiRuntime 1700000000000 user "1"
               ReviewService.mockReviews s in
  ReviewSection.submitCalls out = [] /\
  ReviewSection.store out = ReviewService.mockReviews /\
  ReviewSection.message (ReviewSection.state out)
    = "Please provide both a rating and a comment.".
Proof.
  cbv zeta.
  destruct (C7_incomplete_review_is_not_submitted JS.asciiRuntime 1700000000000
              (ReviewSection.mkUser (Some "John Doe") (Some "mock-jwt-token")) "1"
              ReviewService.mockReviews (ReviewSection.mkState [] "   " 4 false ""))
    as [Hcalls [Hstore Hmsg]].
  - right. reflexivity.
  - split; [exact Hcalls | split; [exact Hstore | apply Hmsg; reflexivity]].
Defined.

(** ** The review service: moderation *)

Lemma nth_error_approve (reviewId : string) (store : ReviewService.Store) (i : nat) :
  nth_error (ReviewService.approveReview reviewId store) i =
  option_map (fun r => if String.eqb (ReviewService.id r) reviewId
                       then ReviewService.mkReview (ReviewService.id r) (ReviewService.user r)
                              (ReviewService.rating r) (ReviewService.comment r) true
                       else r)
             (nth_error store i).
Proof. unfold ReviewService.approveReview. apply nth_error_map. Qed.

Lemma run_keeps_or_approves (op : ReviewService.Op) (store : ReviewService.Store)
    (i : nat) (r' : ReviewService.Review) :
  nth_error (ReviewService.run op store) i = Some r' ->
  ReviewService.approved r' = true ->
  exists r, nth_error store i = Some r /\
            (ReviewService.approved r = true \/ op = ReviewService.OpApprove (ReviewService.id r)).
Proof.
  destruct op as [bookId | now bookId newReview | reviewId]; simpl; intros Hnth Happ.
  - exists r'. split; [exact Hnth | left; exact Happ].
  - destruct (Nat.lt_ge_cases i (List.length store)) as [Hlt | Hge].
    + rewrite nth_error_app1 in Hnth by exact Hlt.
      exists r'. split; [exact Hnth | left; exact Happ].
    + rewrite nth_error_app2 in Hnth by exact Hge.
      destruct (i - List.length store)%nat as [| k]; simpl in Hnth.
      * injection Hnth as <-. simpl in Happ. discriminate Happ.
      * destruct k; discriminate Hnth.
  - rewrite nth_error_approve in Hnth.
    destruct (nth_error store i) as [r |]; simpl in Hnth; [| discriminate Hnth].
    exists r. split; [reflexivity |].
    destruct (String.eqb_spec (ReviewService.id r) reviewId) as [E | NE].
    + right. rewrite E. reflexivity.
    + injection Hnth as <-. left. exact Happ.
Qed.

(** C8: a review made by submitReview is appended to the store with
    approved = false; whenever an operation of the service leaves an
    approved review at some place of the store, that place held a review
    before, and either it was approved already or the operation was
    approveReview with that review's id; and approveReview with a
    review's id does approve it. *)
Theorem C8_approved_only_by_moderation :
  (forall (now : Z) (bookId : string) (newReview : ReviewService.NewReview)
          (store : ReviewService.Store),
     let '(store', review) := ReviewService.submitReview now bookId newReview store in
     store' = (store ++ [review])%list /\ ReviewService.approved review = false) /\
  (forall (op : ReviewService.Op) (store : ReviewService.Store) (i : nat)
          (r' : ReviewService.Review),
     nth_error (ReviewService.run op store) i = Some r' ->
     ReviewService.approved r' = true ->
     exists r, nth_error store i = Some r /\
               (ReviewService.approved r = true \/
                op = ReviewService.OpApprove (ReviewService.id r))) /\
  (forall (store : ReviewService.Store) (i : nat) (r : ReviewService.Review),
     nth_error store i = Some r ->
     exists r', nth_error (ReviewService.approveReview (ReviewService.id r) store) i = Some r' /\
                ReviewService.approved r' = true /\
                ReviewService.id r' = ReviewService.id r).
Proof.
  split; [| split].
  - intros now bookId newReview store. simpl. split; reflexivity.
  - exact run_keeps_or_approves.
  - intros store i r Hnth. rewrite nth_error_approve, Hnth. simpl.
    rewrite String.eqb_refl. eexists. repeat split.
Qed.

Lemma C8_approved_only_by_moderation_witness :
  let newReview := ReviewService.mkNew "Carol" 3 "Fine." in
  let store := fst (ReviewService.submitReview 1700000000000 "1" newReview ReviewService.mockReviews) in
  exists r, nth_error store 2 = Some r /\
            (ReviewService.approved r = true \/
             ReviewService.OpApprove "1700000000000" = ReviewService.OpApprove (ReviewService.id r)).
Proof.
  cbv zeta.
  destruct C8_approved_only_by_moderation as [_ [Honly _]].
  apply (Honly (ReviewService.OpApprove "1700000000000") _ 2%nat
               (ReviewService.mkReview "1700000000000" "Carol" 3 "Fine." true)).
  - reflexivity.
  - reflexivity.
Defined.

(** ** The catalog: the author filter on the mock books *)

(** C6: on every runtime, with author filter "orwell", no title filter,
    no category filter, no sort and page 1, loadBooks on the four mock
    books leaves exactly one book on the page, the "1984" entry, and no
    message. *)
Theorem C6_orwell_finds_1984 :
  forall R : JS.Runtime,
  let s := Catalog.setAuthor "orwell" Catalog.initial in
  Catalog.search s = "" /\ Catalog.genre s = "" /\ Catalog.sort s = "" /\ Catalog.page s = 1 /\
  List.length BookService.fetchFeaturedBooks = 4%nat /\
  Catalog.books (Catalog.loadBooks R s)
    = [ Book.mk "3" "1984" "George Orwell" (999 # 100)
          "https://placehold.co/200x300?text=1984" None None ] /\
  Catalog.shownMessage (Catalog.loadBooks R s) = None.
Proof.
  intros R. cbv zeta.
  split; [reflexivity |]. split; [reflexivity |]. split; [reflexivity |].
  split; [reflexivity |]. split; [reflexivity |].
  split; load_mock_books R; reflexivity.
Qed.

(** ** The review section: the average rating *)
















(** ** The library functions: sort, slice, includes *)

Section SortFacts.

Context {A : Type}.
Variable comparefn : A -> A -> option Q.

Lemma insert_perm (x : A) (l : list A) :
  Permutation (JS.insert comparefn x l) (x :: l).
Proof.
  induction l as [| y l IH]; simpl.
  - apply Permutation_refl.
  - destruct (Qle_bool (JS.SortCompare comparefn x y) 0).
    + apply Permutation_refl.
    + apply perm_trans with (y :: x :: l).
      * apply perm_skip. exact IH.
      * apply perm_swap.
Qed.

Lemma sort_perm (l : list A) : Permutation (JS.sort comparefn l) l.
Proof.
  induction l as [| x l IH]; simpl.
  - apply Permutation_refl.
  - apply perm_trans with (x :: JS.sort comparefn l).
    + apply insert_perm.
    + apply perm_skip. exact IH.
Qed.

Lemma sort_length (l : list A) : List.length (JS.sort comparefn l) = List.length l.
Proof. apply Permutation_length. apply sort_perm. Qed.

(** On a set [P] of elements where the compare function is consistent
    (total and transitive), the result is sorted. *)
Variable P : A -> Prop.
Hypothesis total : forall x y, P x -> P y -> ~ Order.mayPrecede comparefn x y -> Order.mayPrecede comparefn y x.
Hypothesis trans : forall x y z, P x -> P y -> P z ->
  Order.mayPrecede comparefn x y -> Order.mayPrecede comparefn y z -> Order.mayPrecede comparefn x z.

Lemma insert_sorted (x : A) (l : list A) :
  P x -> Forall P l ->
  StronglySorted (Order.mayPrecede comparefn) l -> StronglySorted (Order.mayPrecede comparefn) (JS.insert comparefn x l).
Proof.
  intros Px. induction l as [| y l IH]; intros HP Hs; simpl.
  - constructor; constructor.
  - inversion HP as [| ? ? Py HPl]; subst.
    inversion Hs as [| ? ? Hsl Hall]; subst.
    destruct (Qle_bool (JS.SortCompare comparefn x y) 0) eqn:E.
    + apply Qle_bool_iff in E.
      constructor; [exact Hs |].
      constructor; [exact E |].
      rewrite Forall_forall in Hall, HPl |- *.
      intros z Hz. apply (trans x y z); auto.
    + constructor.
      * apply IH; assumption.
      * assert (Hyx : Order.mayPrecede comparefn y x).
        { apply total; auto. intros H. apply Qle_bool_iff in H.
          unfold Order.mayPrecede in H. rewrite E in H. discriminate H. }
        eapply Permutation_Forall.
        -- apply Permutation_sym. apply insert_perm.
        -- constructor; assumption.
Qed.

Lemma sort_sorted (l : list A) :
  Forall P l -> StronglySorted (Order.mayPrecede comparefn) (JS.sort comparefn l).
Proof.
  induction l as [| x l IH]; intros HP; simpl.
  - constructor.
  - inversion HP as [| ? ? Px HPl]; subst.
    apply insert_sorted.
    + exact Px.
    + eapply Permutation_Forall; [| exact HPl].
      apply Permutation_sym. apply sort_perm.
    + apply IH. exact HPl.
Qed.

End SortFacts.

Lemma slice_page {A : Type} (l : list A) (start : Z) :
  0 <= start ->
  JS.slice l start (start + 8) = firstn 8 (skipn (Z.to_nat start) l).
Proof.
  intros Hs. unfold JS.slice, JS.relativeIndex.
  destruct (Z.ltb_spec start 0) as [Hneg | _]; [lia |].
  destruct (Z.ltb_spec (start + 8) 0) as [Hneg | _]; [lia |].
  set (len := Z.of_nat (List.length l)).
  destruct (Z.le_gt_cases len start) as [Hout | Hin].
  - rewrite (skipn_all2 (n := Z.to_nat (Z.min start len))) by lia.
    rewrite (skipn_all2 (n := Z.to_nat start)) by lia.
    rewrite !firstn_nil. reflexivity.
  - replace (Z.min start len) with start by lia.
    destruct (Z.le_gt_cases (start + 8) len) as [Hfull | Hshort].
    + replace (Z.to_nat (Z.max (Z.min (start + 8) len - start) 0)) with 8%nat by lia.
      reflexivity.
    + rewrite !firstn_all2; [reflexivity | |]; rewrite length_skipn; lia.
Qed.

Lemma slice_past_the_end {A : Type} (l : list A) (start stop : Z) :
  Z.of_nat (List.length l) <= start -> JS.slice l start stop = [].
Proof.
  intros Hs. unfold JS.slice, JS.relativeIndex.
  destruct (Z.ltb_spec start 0) as [Hneg | _]; [lia |].
  rewrite skipn_all2 by lia. apply firstn_nil.
Qed.

Lemma prefix_spec (sub s : string) :
  String.prefix sub s = true <-> exists post, s = sub ++ post.
Proof.
  revert sub. induction s as [| d s IH]; intros [| c sub]; simpl.
  - split; [intros _; exists ""; reflexivity | reflexivity].
  - split; [discriminate | intros [post H]; discriminate H].
  - split; [intros _; exists (String d s); reflexivity | reflexivity].
  - destruct (ascii_dec c d) as [-> | NE].
    + rewrite IH. split; intros [post H]; exists post.
      * rewrite H. reflexivity.
      * injection H as H. exact H.
    + split; [discriminate | intros [post H]; injection H as H1 H2; congruence].
Qed.

Lemma includes_spec (s sub : string) :
  JS.includes s sub = true <-> exists pre post, s = pre ++ sub ++ post.
Proof.
  induction s as [| c s IH].
  - change (JS.includes "" sub) with (String.prefix sub "" || false).
    rewrite orb_false_r, prefix_spec. split.
    + intros [post H]. exists "", post. exact H.
    + intros [pre [post H]]. destruct pre as [| d pre]; [| discriminate H].
      exists post. exact H.
  - change (JS.includes (String c s) sub)
      with (String.prefix sub (String c s) || JS.includes s sub).
    rewrite orb_true_iff, prefix_spec, IH. split.
    + intros [[post H] | [pre [post H]]].
      * exists "", post. exact H.
      * exists (String c pre), post. simpl. rewrite H. reflexivity.
    + intros [pre [post H]]. destruct pre as [| d pre].
      * left. exists post. exact H.
      * right. simpl in H. injection H as _ H. exists pre, post. exact H.
Qed.

(** ** The catalog: what [loadBooks] leaves in the state *)

Lemma loadBooksOn_books (R : JS.Runtime) (allBooks : list Book.t) (s : Catalog.State) :
  Catalog.books (Catalog.loadBooksOn R (Some allBooks) s)
  = JS.slice
      (let l := CatalogSpec.filtered R (CatalogSpec.nonBlank R)
                  (Catalog.search s) (Catalog.author s) (Catalog.genre s) allBooks in
       if String.eqb (Catalog.sort s) "priceAsc" then JS.sort Catalog.byPriceAsc l
       else if String.eqb (Catalog.sort s) "priceDesc" then JS.sort Catalog.byPriceDesc l
       else if String.eqb (Catalog.sort s) "releaseDate" then JS.sort Catalog.byReleaseDate l
       else l)
      ((Catalog.page s - 1) * 8) ((Catalog.page s - 1) * 8 + 8).
Proof.
  unfold Catalog.loadBooksOn, CatalogSpec.filtered, CatalogSpec.stage, CatalogSpec.nonBlank.
  cbn [Catalog.setLoading Catalog.search Catalog.author Catalog.genre Catalog.sort Catalog.page].
  match goal with
  | |- Catalog.books (Catalog.setLoading false (Catalog.setBooks ?p ?x)) = _ =>
      change (Catalog.books (Catalog.setLoading false (Catalog.setBooks p x))) with p
  end.
  reflexivity.
Qed.

Lemma loadBooksOn_message (R : JS.Runtime) (allBooks : list Book.t) (s : Catalog.State) :
  Catalog.shownMessage (Catalog.loadBooksOn R (Some allBooks) s)
  = match Catalog.books (Catalog.loadBooksOn R (Some allBooks) s) with
    | [] => Some "No results found"
    | _ :: _ => None
    end.
Proof.
  unfold Catalog.loadBooksOn.
  cbn [Catalog.setLoading Catalog.search Catalog.author Catalog.genre Catalog.sort Catalog.page].
  match goal with
  | |- context [JS.slice ?l ?a ?b] => generalize (JS.slice l a b)
  end.
  intros [| b l]; reflexivity.
Qed.

Lemma StronglySorted_weaken {A : Type} (R R' : A -> A -> Prop) (l : list A) :
  (forall x y, In x l -> In y l -> R x y -> R' x y) ->
  StronglySorted R l -> StronglySorted R' l.
Proof.
  induction l as [| a l IH]; intros Himp Hs.
  - constructor.
  - inversion Hs as [| ? ? Hsl Hall]; subst. constructor.
    + apply IH; [| exact Hsl].
      intros x y Hx Hy. apply Himp; right; assumption.
    + rewrite Forall_forall in Hall |- *.
      intros y Hy. apply Himp; [left; reflexivity | right; exact Hy | apply Hall; exact Hy].
Qed.

Lemma byPriceAsc_precedes (a b : Book.t) :
  Order.mayPrecede Catalog.byPriceAsc a b <-> CatalogSpec.priceAscending a b.
Proof.
  unfold Order.mayPrecede, JS.SortCompare, Catalog.byPriceAsc, CatalogSpec.priceAscending.
  split; intros H; lra.
Qed.

Lemma byPriceDesc_precedes (a b : Book.t) :
  Order.mayPrecede Catalog.byPriceDesc a b <-> CatalogSpec.priceDescending a b.
Proof.
  unfold Order.mayPrecede, JS.SortCompare, Catalog.byPriceDesc, CatalogSpec.priceDescending.
  split; intros H; lra.
Qed.

Lemma byReleaseDate_precedes (a b : Book.t) (ta tb : Z) :
  Book.releaseDate a = Some ta -> Book.releaseDate b = Some tb ->
  (Order.mayPrecede Catalog.byReleaseDate a b <-> tb <= ta).
Proof.
  intros Ha Hb.
  unfold Order.mayPrecede, JS.SortCompare, Catalog.byReleaseDate. rewrite Ha, Hb.
  change 0%Q with (inject_Z 0). rewrite <- Zle_Qle. lia.
Qed.

Lemma sort_byPriceAsc_sorted (l : list Book.t) :
  StronglySorted CatalogSpec.priceAscending (JS.sort Catalog.byPriceAsc l).
Proof.
  apply StronglySorted_weaken with (R := Order.mayPrecede Catalog.byPriceAsc).
  - intros x y _ _. apply byPriceAsc_precedes.
  - apply sort_sorted with (P := fun _ => True).
    + intros x y _ _. rewrite !byPriceAsc_precedes.
      unfold CatalogSpec.priceAscending. intros H. lra.
    + intros x y z _ _ _. rewrite !byPriceAsc_precedes.
      unfold CatalogSpec.priceAscending. intros H1 H2. lra.
    + apply Forall_forall. intros; exact I.
Qed.

Lemma sort_byPriceDesc_sorted (l : list Book.t) :
  StronglySorted CatalogSpec.priceDescending (JS.sort Catalog.byPriceDesc l).
Proof.
  apply StronglySorted_weaken with (R := Order.mayPrecede Catalog.byPriceDesc).
  - intros x y _ _. apply byPriceDesc_precedes.
  - apply sort_sorted with (P := fun _ => True).
    + intros x y _ _. rewrite !byPriceDesc_precedes.
      unfold CatalogSpec.priceDescending. intros H. lra.
    + intros x y z _ _ _. rewrite !byPriceDesc_precedes.
      unfold CatalogSpec.priceDescending. intros H1 H2. lra.
    + apply Forall_forall. intros; exact I.
Qed.

Lemma hasDate_some (b : Book.t) :
  CatalogSpec.hasDate b -> exists t, Book.releaseDate b = Some t.
Proof.
  unfold CatalogSpec.hasDate. destruct (Book.releaseDate b) as [t |].
  - intros _. exists t. reflexivity.
  - intros H. contradiction.
Qed.

Lemma sort_byReleaseDate_sorted (l : list Book.t) :
  Forall CatalogSpec.hasDate l ->
  StronglySorted CatalogSpec.dateDescending (JS.sort Catalog.byReleaseDate l).
Proof.
  intros Hdates.
  apply StronglySorted_weaken with (R := Order.mayPrecede Catalog.byReleaseDate).
  - intros x y _ _ Hxy ta tb Ha Hb.
    apply (byReleaseDate_precedes x y ta tb Ha Hb). exact Hxy.
  - apply sort_sorted with (P := CatalogSpec.hasDate).
    + intros x y Hx Hy.
      destruct (hasDate_some x Hx) as [tx Ex]. destruct (hasDate_some y Hy) as [ty Ey].
      rewrite (byReleaseDate_precedes x y tx ty Ex Ey).
      rewrite (byReleaseDate_precedes y x ty tx Ey Ex). lia.
    + intros x y z Hx Hy Hz.
      destruct (hasDate_some x Hx) as [tx Ex]. destruct (hasDate_some y Hy) as [ty Ey].
      destruct (hasDate_some z Hz) as [tz Ez].
      rewrite (byReleaseDate_precedes x y tx ty Ex Ey).
      rewrite (byReleaseDate_precedes y z ty tz Ey Ez).
      rewrite (byReleaseDate_precedes x z tx tz Ex Ez). lia.
    + exact Hdates.
Qed.

Lemma containsCI_spec (R : JS.Runtime) (needle hay : string) :
  CatalogSpec.containsCI R needle hay = true <-> CatalogSpec.ContainsCI R needle hay.
Proof. unfold CatalogSpec.containsCI, CatalogSpec.ContainsCI. apply includes_spec. Qed.

Lemma pageOf_slice (l : list Book.t) (p : Z) :
  1 <= p ->
  JS.slice l ((p - 1) * 8) ((p - 1) * 8 + 8) = CatalogSpec.pageOf p l.
Proof.
  intros Hp. rewrite slice_page by lia. unfold CatalogSpec.pageOf, CatalogSpec.pageSize.
  replace (Z.to_nat ((p - 1) * 8)) with (8 * Z.to_nat (p - 1))%nat by lia.
  reflexivity.
Qed.

(** ** The catalog: the view and its pages *)

Lemma nonBlank_empty (R : JS.Runtime) : CatalogSpec.nonBlank R "" = false.
Proof. unfold CatalogSpec.nonBlank. ascii_runtime R. reflexivity. Qed.

Lemma filtered_no_filter (R : JS.Runtime) (applies : string -> bool) (l : list Book.t) :
  applies "" = false -> CatalogSpec.filtered R applies "" "" "" l = l.
Proof.
  intros H. unfold CatalogSpec.filtered, CatalogSpec.stage. rewrite H. reflexivity.
Qed.

Lemma byTitle_space_mock (R : JS.Runtime) :
  CatalogSpec.filtered R CatalogSpec.entered " " "" "" BookService.fetchFeaturedBooks
  = [ Book.mk "1" "The Great Gatsby" "F. Scott Fitzgerald" (1299 # 100)
        "https://placehold.co/200x300?text=Gatsby" None None;
      Book.mk "2" "To Kill a Mockingbird" "Harper Lee" (1099 # 100)
        "https://placehold.co/200x300?text=Mockingbird" None None;
      Book.mk "4" "Pride and Prejudice" "Jane Austen" (1149 # 100)
        "https://placehold.co/200x300?text=Pride+%26+Prejudice" None None ].
Proof.
  unfold CatalogSpec.filtered, CatalogSpec.stage, CatalogSpec.byTitle, CatalogSpec.containsCI,
    BookService.fetchFeaturedBooks.
  cbn [CatalogSpec.entered JS.truthy filter Book.title].
  ascii_runtime R. reflexivity.
Qed.

Lemma not_descending_threeDates :
  ~ StronglySorted CatalogSpec.dateDescending CatalogSpec.threeDates.
Proof.
  intros Hs. inversion Hs as [| x l _ Hall]; subst.
  inversion Hall as [| y l' _ Hall']; subst.
  inversion Hall' as [| z l'' Hac _]; subst.
  specialize (Hac 1 2 eq_refl eq_refl). lia.
Qed.

(** C2, as the claim is worded, fails in three ways, on every runtime.
    (1) With the search string " " (one space) and nothing else set, a
    filter by title substring drops "1984", whose title has no space, and
    keeps the other three mock books; the code skips the title filter
    for a blank search string and shows all four.  (2) With page number
    -1, no filter and no sort, on a list of nine books, [slice(-16, -8)]
    holds the first book, which is neither a page of eight nor the empty
    page; the pipeline fails there also when blank filter strings are
    skipped.  (3) With sort key releaseDate on three books dated 1, not
    dated and 2 the compare function yields NaN against the second
    book, which makes it inconsistent; the sort, which reads NaN as 0,
    finds each book in place next to its neighbour and leaves the list
    as it is, which is not descending by date. *)
Lemma C2_claimed_pipeline_fails :
  (forall R : JS.Runtime,
     let s := Catalog.setSearch " " Catalog.initial in
     let view := Catalog.books (Catalog.loadBooks R s) in
     view = BookService.fetchFeaturedBooks /\
     map Book.title (CatalogSpec.byTitle R " " BookService.fetchFeaturedBooks)
       = ["The Great Gatsby"; "To Kill a Mockingbird"; "Pride and Prejudice"] /\
     ~ CatalogSpec.IsView R CatalogSpec.entered CatalogSpec.anyList BookService.fetchFeaturedBooks
         (Catalog.search s) (Catalog.author s) (Catalog.genre s) (Catalog.sort s)
         (Catalog.page s) view) /\
  (forall R : JS.Runtime,
     let s := Catalog.setPage (-1) Catalog.initial in
     let view := Catalog.books (Catalog.loadBooksOn R (Some CatalogSpec.nineBooks) s) in
     map Book.id view = ["1"] /\
     ~ CatalogSpec.IsView R CatalogSpec.entered CatalogSpec.anyList CatalogSpec.nineBooks
         (Catalog.search s) (Catalog.author s) (Catalog.genre s) (Catalog.sort s)
         (Catalog.page s) view /\
     ~ CatalogSpec.IsView R (CatalogSpec.nonBlank R) CatalogSpec.allDated CatalogSpec.nineBooks
         (Catalog.search s) (Catalog.author s) (Catalog.genre s) (Catalog.sort s)
         (Catalog.page s) view) /\
  (forall R : JS.Runtime,
     let s := Catalog.setSort "releaseDate" Catalog.initial in
     let view := Catalog.books (Catalog.loadBooksOn R (Some CatalogSpec.threeDates) s) in
     view = CatalogSpec.threeDates /\
     map Book.releaseDate view = [Some 1; None; Some 2] /\
     ~ StronglySorted CatalogSpec.dateDescending view /\
     ~ CatalogSpec.IsView R CatalogSpec.entered CatalogSpec.anyList CatalogSpec.threeDates
         (Catalog.search s) (Catalog.author s) (Catalog.genre s) (Catalog.sort s)
         (Catalog.page s) view).
Proof.
  split; [| split]; intros R; cbv zeta.
  - assert (Hview : Catalog.books (Catalog.loadBooks R (Catalog.setSearch " " Catalog.initial))
                    = BookService.fetchFeaturedBooks).
    { load_mock_books R. reflexivity. }
    split; [exact Hview |]. split.
    + pose proof (byTitle_space_mock R) as H.
      unfold CatalogSpec.filtered, CatalogSpec.stage in H.
      cbn [CatalogSpec.entered JS.truthy] in H. rewrite H. reflexivity.
    + rewrite Hview. intros [ordered [Harr Hpage]].
      cbn [Catalog.search Catalog.author Catalog.genre Catalog.sort Catalog.page
           Catalog.setSearch Catalog.initial] in Harr, Hpage.
      rewrite byTitle_space_mock in Harr.
      unfold CatalogSpec.Arranged in Harr. cbn [String.eqb Ascii.eqb] in Harr.
      subst ordered. vm_compute in Hpage. discriminate Hpage.
  - assert (Hview : Catalog.books
                      (Catalog.loadBooksOn R (Some CatalogSpec.nineBooks)
                         (Catalog.setPage (-1) Catalog.initial))
                    = firstn 1 CatalogSpec.nineBooks).
    { unfold Catalog.loadBooksOn.
      cbn [Catalog.search Catalog.author Catalog.genre Catalog.sort Catalog.page
           Catalog.setPage Catalog.setLoading Catalog.initial].
      ascii_runtime R. reflexivity. }
    rewrite Hview.
    cbn [Catalog.search Catalog.author Catalog.genre Catalog.sort Catalog.page
         Catalog.setPage Catalog.initial].
    split; [reflexivity |]. split.
    + intros [ordered [Harr Hpage]].
      rewrite filtered_no_filter in Harr by reflexivity.
      unfold CatalogSpec.Arranged in Harr. cbn [String.eqb Ascii.eqb] in Harr.
      subst ordered. vm_compute in Hpage. discriminate Hpage.
    + intros [ordered [Harr Hpage]].
      rewrite filtered_no_filter in Harr by apply nonBlank_empty.
      unfold CatalogSpec.Arranged in Harr. cbn [String.eqb Ascii.eqb] in Harr.
      subst ordered. vm_compute in Hpage. discriminate Hpage.
  - assert (Hview : Catalog.books
                      (Catalog.loadBooksOn R (Some CatalogSpec.threeDates)
                         (Catalog.setSort "releaseDate" Catalog.initial))
                    = CatalogSpec.threeDates).
    { unfold Catalog.loadBooksOn.
      cbn [Catalog.search Catalog.author Catalog.genre Catalog.sort Catalog.page
           Catalog.setSort Catalog.setLoading Catalog.initial].
      ascii_runtime R. reflexivity. }
    rewrite Hview.
    cbn [Catalog.search Catalog.author Catalog.genre Catalog.sort Catalog.page
         Catalog.setSort Catalog.initial].
    split; [reflexivity |]. split; [reflexivity |].
    split; [exact not_descending_threeDates |].
    intros [ordered [Harr Hpage]].
    rewrite filtered_no_filter in Harr by reflexivity.
    unfold CatalogSpec.Arranged in Harr. cbn [String.eqb Ascii.eqb] in Harr.
    destruct Harr as [Hperm Hsorted].
    specialize (Hsorted I).
    apply Permutation_length in Hperm.
    unfold CatalogSpec.pageOf, CatalogSpec.pageSize in Hpage.
    change (8 * Z.to_nat (1 - 1))%nat with 0%nat in Hpage.
    rewrite skipn_O, firstn_all2 in Hpage
      by (rewrite Hperm; unfold CatalogSpec.threeDates; simpl; lia).
    subst ordered. exact (not_descending_threeDates Hsorted).
Qed.

Lemma arranged_by_code (key : string) (l : list Book.t) :
  CatalogSpec.Arranged CatalogSpec.allDated key l
    (if String.eqb key "priceAsc" then JS.sort Catalog.byPriceAsc l
     else if String.eqb key "priceDesc" then JS.sort Catalog.byPriceDesc l
     else if String.eqb key "releaseDate" then JS.sort Catalog.byReleaseDate l
     else l).
Proof.
  unfold CatalogSpec.Arranged.
  destruct (String.eqb key "priceAsc").
  - split; [apply sort_perm | apply sort_byPriceAsc_sorted].
  - destruct (String.eqb key "priceDesc").
    + split; [apply sort_perm | apply sort_byPriceDesc_sorted].
    + destruct (String.eqb key "releaseDate").
      * split; [apply sort_perm | apply sort_byReleaseDate_sorted].
      * reflexivity.
Qed.

(** C2, amended: on every runtime, for every book list and every filter
    state with a page number of at least 1, the books [loadBooks] leaves
    on the page are the view computed by: filter by case-insensitive
    title substring, then by case-insensitive author substring, then by
    exact category, each filter running only when its filter string is
    not blank (what [trim] leaves of it is not the empty string); then
    sort (priceAsc ascending by price, priceDesc descending by price,
    releaseDate descending by date when the books all carry dates, any
    other key leaving the order); then the page of eight.  When that page
    is empty the message "No results found" is shown, and no message
    otherwise. *)
Theorem C2_catalog_view_pipeline :
  forall (R : JS.Runtime) (allBooks : list Book.t) (s : Catalog.State),
    1 <= Catalog.page s ->
    let s' := Catalog.loadBooksOn R (Some allBooks) s in
    CatalogSpec.IsView R (CatalogSpec.nonBlank R) CatalogSpec.allDated allBooks
      (Catalog.search s) (Catalog.author s) (Catalog.genre s) (Catalog.sort s)
      (Catalog.page s) (Catalog.books s') /\
    (Catalog.books s' = [] -> Catalog.shownMessage s' = Some "No results found") /\
    (Catalog.books s' <> [] -> Catalog.shownMessage s' = None) /\
    (forall needle hay,
       CatalogSpec.containsCI R needle hay = true <-> CatalogSpec.ContainsCI R needle hay).
Proof.
  intros R allBooks s Hpage s'. subst s'.
  split; [| split; [| split]].
  - rewrite loadBooksOn_books. cbv zeta.
    eexists. split.
    + apply arranged_by_code.
    + apply pageOf_slice. exact Hpage.
  - intros Hnil. rewrite loadBooksOn_message, Hnil. reflexivity.
  - intros Hne. rewrite loadBooksOn_message.
    destruct (Catalog.books (Catalog.loadBooksOn R (Some allBooks) s)); [contradiction | reflexivity].
  - exact (containsCI_spec R).
Qed.

Lemma C2_catalog_view_pipeline_witness :
  let s := Catalog.setSort "priceAsc" (Catalog.setAuthor "o" Catalog.initial) in
  let s' := Catalog.loadBooksOn JS.asciiRuntime (Some BookService.fetchFeaturedBooks) s in
  CatalogSpec.IsView JS.asciiRuntime (CatalogSpec.nonBlank JS.asciiRuntime) CatalogSpec.allDated
    BookService.fetchFeaturedBooks "" "o" "" "priceAsc" 1 (Catalog.books s') /\
  map Book.title (Catalog.books s') = ["1984"; "The Great Gatsby"].
Proof.
  cbv zeta. split.
  - apply (C2_catalog_view_pipeline JS.asciiRuntime BookService.fetchFeaturedBooks
             (Catalog.setSort "priceAsc" (Catalog.setAuthor "o" Catalog.initial))).
    simpl. lia.
  - reflexivity.
Defined.

(** ** The catalog: pages past the last one *)

Lemma iter_next_page (n : nat) (s : Catalog.State) :
  Catalog.page (Nat.iter n Catalog.onNextClick s) = Catalog.page s + Z.of_nat n.
Proof.
  induction n as [| n IH].
  - simpl. lia.
  - rewrite Nat.iter_succ. unfold Catalog.onNextClick at 1.
    cbn [Catalog.page Catalog.setPage]. rewrite IH. lia.
Qed.

Lemma filtered_sorted_length (key : string) (l : list Book.t) :
  List.length
    (if String.eqb key "priceAsc" then JS.sort Catalog.byPriceAsc l
     else if String.eqb key "priceDesc" then JS.sort Catalog.byPriceDesc l
     else if String.eqb key "releaseDate" then JS.sort Catalog.byReleaseDate l
     else l)
  = List.length l.
Proof.
  destruct (String.eqb key "priceAsc"); [apply sort_length |].
  destruct (String.eqb key "priceDesc"); [apply sort_length |].
  destruct (String.eqb key "releaseDate"); [apply sort_length | reflexivity].
Qed.

Lemma loadBooksOn_page (R : JS.Runtime) (fetched : option (list Book.t)) (s : Catalog.State) :
  Catalog.page (Catalog.loadBooksOn R fetched s) = Catalog.page s.
Proof.
  unfold Catalog.loadBooksOn. destruct fetched as [allBooks |].
  - cbv zeta.
    match goal with
    | |- context [(List.length ?l =? 0)%nat] => destruct (List.length l =? 0)%nat
    end; reflexivity.
  - reflexivity.
Qed.

Lemma reachable_page_from_one (R : JS.Runtime) (s : Catalog.State) :
  Catalog.Reachable R s -> 1 <= Catalog.page s.
Proof.
  induction 1 as [| v s _ IH | v s _ IH | v s _ IH | v s _ IH
                  | s _ IH | s _ IH | fetched s _ IH].
  - simpl. lia.
  - exact IH.
  - exact IH.
  - exact IH.
  - exact IH.
  - unfold Catalog.onPrevClick, Catalog.prevDisabled.
    destruct (Z.eqb_spec (Catalog.page s) 1) as [E | NE].
    + exact IH.
    + cbn [Catalog.page Catalog.setPage]. lia.
  - unfold Catalog.onNextClick. cbn [Catalog.page Catalog.setPage]. lia.
  - rewrite loadBooksOn_page. exact IH.
Qed.

(** C9: on every runtime, the Next button adds one to the page number whatever it is, so
    every page number from 1 upwards is reached by pressing it; Prev is
    disabled exactly at page 1, so that no page number below 1 is
    reached; and for every book list, every filter
    state and every page number p with (p - 1) x 8 at least the length of
    the filtered list, the page [loadBooks] computes is empty and the
    message "No results found" is shown.  This happens with a filtered
    list that is not empty: page 2 of the four mock books. *)
Theorem C9_pages_past_the_end_are_empty :
  forall R : JS.Runtime,
  (forall s, Catalog.page (Catalog.onNextClick s) = Catalog.page s + 1) /\
  (forall n : nat,
     Catalog.page (Nat.iter n Catalog.onNextClick Catalog.initial) = 1 + Z.of_nat n) /\
  (forall s, Catalog.prevDisabled s = true <-> Catalog.page s = 1) /\
  (forall s, Catalog.prevDisabled s = true -> Catalog.onPrevClick s = s) /\
  (forall s, Catalog.Reachable R s -> 1 <= Catalog.page s) /\
  (forall (allBooks : list Book.t) (s : Catalog.State),
     (Catalog.page s - 1) * 8 >=
       Z.of_nat (List.length (CatalogSpec.filtered R (CatalogSpec.nonBlank R)
                                (Catalog.search s) (Catalog.author s) (Catalog.genre s) allBooks)) ->
     Catalog.books (Catalog.loadBooksOn R (Some allBooks) s) = [] /\
     Catalog.shownMessage (Catalog.loadBooksOn R (Some allBooks) s) = Some "No results found") /\
  (let s := Catalog.onNextClick Catalog.initial in
   CatalogSpec.filtered R (CatalogSpec.nonBlank R)
     (Catalog.search s) (Catalog.author s) (Catalog.genre s) BookService.fetchFeaturedBooks
     = BookService.fetchFeaturedBooks /\
   Catalog.books (Catalog.loadBooks R s) = [] /\
   Catalog.shownMessage (Catalog.loadBooks R s) = Some "No results found").
Proof.
  intros R.
  split; [| split; [| split; [| split; [| split; [| split]]]]].
  - intros s. reflexivity.
  - intros n. rewrite iter_next_page. reflexivity.
  - intros s. unfold Catalog.prevDisabled. apply Z.eqb_eq.
  - intros s H. unfold Catalog.onPrevClick. rewrite H. reflexivity.
  - exact (reachable_page_from_one R).
  - intros allBooks s Hpast.
    assert (Hnil : Catalog.books (Catalog.loadBooksOn R (Some allBooks) s) = []).
    { rewrite loadBooksOn_books. apply slice_past_the_end.
      cbv zeta. rewrite filtered_sorted_length. lia. }
    split; [exact Hnil |].
    rewrite loadBooksOn_message, Hnil. reflexivity.
  - cbv zeta. split; [| split].
    + apply filtered_no_filter. apply nonBlank_empty.
    + load_mock_books R. reflexivity.
    + load_mock_books R. reflexivity.
Qed.

Lemma C9_pages_past_the_end_are_empty_witness :
  let s := Catalog.setPage 3 (Catalog.setAuthor "e" Catalog.initial) in
  Catalog.books (Catalog.loadBooksOn JS.asciiRuntime (Some BookService.fetchFeaturedBooks) s) = [] /\
  Catalog.shownMessage (Catalog.loadBooksOn JS.asciiRuntime (Some BookService.fetchFeaturedBooks) s)
    = Some "No results found".
Proof.
  cbv zeta.
  destruct (C9_pages_past_the_end_are_empty JS.asciiRuntime) as [_ [_ [_ [_ [_ [Hpast _]]]]]].
  apply (Hpast BookService.fetchFeaturedBooks
               (Catalog.setPage 3 (Catalog.setAuthor "e" Catalog.initial))).
  vm_compute. discriminate.
Defined.

(* ================================================================== *)
(** * Part III: further properties of the code *)
(* ================================================================== *)

(** ** The cart page: the subtotal *)

Lemma subtotal_app (cart : list CartSlice.CartItem) (item : CartSlice.CartItem) :
  Cart.subtotal (cart ++ [item])
  = (Cart.subtotal cart + CartSlice.price item * CartSlice.quantity item)%float.
Proof. unfold Cart.subtotal, JS.reduce. rewrite fold_left_app. reflexivity. Qed.

(** X1: the subtotal is added up line by line, in binary64.  It is 0 for
    the empty cart, and a further line at the end adds its price times
    its quantity to the subtotal so far, each operation rounding.  The
    order of the lines matters: lines at 0.1, 0.2 and 0.3 add up to
    0.6000000000000001, and in the reverse order to 0.6; and the total
    printed for seven copies at 0.25 with a tenth off is 1.57, where
    nine tenths of 1.75 is 1.575. *)
Theorem X1_subtotal_adds_line_by_line :
  Cart.subtotal [] = 0%float /\
  (forall (cart : list CartSlice.CartItem) (item : CartSlice.CartItem),
     Cart.subtotal (cart ++ [item])
     = (Cart.subtotal cart + CartSlice.price item * CartSlice.quantity item)%float) /\
  (let a := CartSlice.mkItem "1" "Book One" 0.1 1 in
   let b := CartSlice.mkItem "2" "Book Two" 0.2 1 in
   let c := CartSlice.mkItem "3" "Book Three" 0.3 1 in
   Cart.subtotal [a; b; c] = 0.6000000000000001%float /\
   Cart.subtotal [c; b; a] = 0.6%float /\
   JS.sameNumber (Cart.subtotal [a; b; c]) (Cart.subtotal [c; b; a]) = false) /\
  (let cart := [CartSlice.mkItem "1" "Book One" 0.25 7] in
   Cart.subtotal cart = 1.75%float /\
   Cart.shownTotal cart (Cart.mkState "SAVE10" 0.1 "") = JS.Text "1.57").
Proof.
  split; [reflexivity |]. split; [exact subtotal_app |].
  split; cbv zeta.
  - split; [reflexivity |]. split; reflexivity.
  - split; [reflexivity |]. vm_compute. reflexivity.
Qed.

(** ** The cart page: one code at a time *)

Lemma applyCode_forgets (R : JS.Runtime) (code : string) (s s' : Cart.State) :
  Cart.applyCode R code s = Cart.applyCode R code s'.
Proof. reflexivity. Qed.

Lemma applyCode_discount_cases (R : JS.Runtime) (code : string) (s : Cart.State) :
  (Cart.discount (Cart.applyCode R code s) = 0%float /\
   Cart.error (Cart.applyCode R code s) = "Invalid discount code") \/
  (Cart.discount (Cart.applyCode R code s) = 0.1%float /\
   Cart.error (Cart.applyCode R code s) = "").
Proof.
  destruct (string_dec (JS.toUpperCase R (JS.trim R code)) "SAVE10") as [E | NE].
  - right. rewrite applyCode_match by exact E. split; reflexivity.
  - left. rewrite applyCode_mismatch by exact NE. split; reflexivity.
Qed.

(** X2: discounts do not add up.  On every runtime, after any run of
    codes applied one after the other the state is the one the last code
    alone gives: either the discount is 0, the error is shown and the
    total is the subtotal less 0 times the subtotal, or the discount is
    0.1, no error is shown and the total is the subtotal less 0.1 times
    the subtotal; a tenth is never taken off twice. *)
Theorem X2_discounts_do_not_add_up :
  forall (R : JS.Runtime) (codes : list string) (code : string) (s : Cart.State)
         (cart : list CartSlice.CartItem),
    let s' := fold_left (fun st c => Cart.applyCode R c st) (codes ++ [code])%list s in
    s' = Cart.applyCode R code s /\
    ((Cart.discount s' = 0%float /\ Cart.error s' = "Invalid discount code" /\
      Cart.total cart s' = (Cart.subtotal cart - Cart.subtotal cart * 0)%float) \/
     (Cart.discount s' = 0.1%float /\ Cart.error s' = "" /\
      Cart.total cart s' = (Cart.subtotal cart - Cart.subtotal cart * 0.1)%float)).
Proof.
  intros R codes code s cart s'.
  assert (Hlast : s' = Cart.applyCode R code s).
  { subst s'. rewrite fold_left_app. simpl. apply applyCode_forgets. }
  rewrite Hlast.
  split; [reflexivity |].
  unfold Cart.total.
  destruct (applyCode_discount_cases R code s) as [[Hd He] | [Hd He]]; rewrite Hd, He.
  - left. repeat split.
  - right. repeat split.
Qed.

(** ** The catalog: what a page holds *)

Lemma in_firstn_list {A : Type} (n : nat) (l : list A) (x : A) :
  In x (firstn n l) -> In x l.
Proof.
  intros H. rewrite <- (firstn_skipn n l). apply in_or_app. left. exact H.
Qed.

Lemma in_skipn_list {A : Type} (n : nat) (l : list A) (x : A) :
  In x (skipn n l) -> In x l.
Proof.
  intros H. rewrite <- (firstn_skipn n l). apply in_or_app. right. exact H.
Qed.

Lemma in_slice {A : Type} (l : list A) (start stop : Z) (x : A) :
  In x (JS.slice l start stop) -> In x l.
Proof.
  unfold JS.slice. intros H.
  apply in_firstn_list in H. apply in_skipn_list in H. exact H.
Qed.

Lemma slice_window_length {A : Type} (l : list A) (start : Z) :
  (List.length (JS.slice l start (start + 8)) <= 8)%nat.
Proof.
  unfold JS.slice, JS.relativeIndex.
  set (len := Z.of_nat (List.length l)).
  assert (Hlen : 0 <= len) by (subst len; lia).
  match goal with
  | |- (List.length (firstn ?n _) <= 8)%nat =>
      assert (Hn : (n <= 8)%nat); [| pose proof (firstn_le_length n (skipn (Z.to_nat
        (if (start <? 0)%Z then Z.max (len + start) 0 else Z.min start len)) l)); lia]
  end.
  destruct (Z.ltb_spec start 0); destruct (Z.ltb_spec (start + 8) 0); lia.
Qed.

Lemma ordered_perm (key : string) (l : list Book.t) :
  Permutation
    (if String.eqb key "priceAsc" then JS.sort Catalog.byPriceAsc l
     else if String.eqb key "priceDesc" then JS.sort Catalog.byPriceDesc l
     else if String.eqb key "releaseDate" then JS.sort Catalog.byReleaseDate l
     else l)
    l.
Proof.
  destruct (String.eqb key "priceAsc"); [apply sort_perm |].
  destruct (String.eqb key "priceDesc"); [apply sort_perm |].
  destruct (String.eqb key "releaseDate"); [apply sort_perm | apply Permutation_refl].
Qed.

Lemma in_stage (applies : string -> bool) (f : string -> list Book.t -> list Book.t)
    (keeps : string -> Book.t -> bool) (q : string) (l : list Book.t) (b : Book.t) :
  (forall q' l', f q' l' = filter (keeps q') l') ->
  In b (CatalogSpec.stage applies f q l) ->
  In b l /\ (applies q = true -> keeps q b = true).
Proof.
  intros Hf. unfold CatalogSpec.stage. destruct (applies q).
  - rewrite Hf, filter_In. intros [Hin Hk]. split; [exact Hin | intros _; exact Hk].
  - intros Hin. split; [exact Hin | discriminate].
Qed.

Lemma in_filtered (R : JS.Runtime) (search author genre : string)
    (allBooks : list Book.t) (b : Book.t) :
  In b (CatalogSpec.filtered R (CatalogSpec.nonBlank R) search author genre allBooks) ->
  In b allBooks /\
  (CatalogSpec.nonBlank R search = true -> CatalogSpec.ContainsCI R search (Book.title b)) /\
  (CatalogSpec.nonBlank R author = true -> CatalogSpec.ContainsCI R author (Book.author b)) /\
  (CatalogSpec.nonBlank R genre = true -> Book.category b = Some genre).
Proof.
  unfold CatalogSpec.filtered. intros H.
  apply (in_stage _ _ (fun g b => match Book.category b with
                                  | Some c => String.eqb c g
                                  | None => false
                                  end)) in H; [| reflexivity].
  destruct H as [H Hg].
  apply (in_stage _ _ (fun q b => CatalogSpec.containsCI R q (Book.author b))) in H;
    [| reflexivity].
  destruct H as [H Ha].
  apply (in_stage _ _ (fun q b => CatalogSpec.containsCI R q (Book.title b))) in H;
    [| reflexivity].
  destruct H as [H Ht].
  split; [exact H |]. split; [| split].
  - intros Hs. apply containsCI_spec. apply Ht. exact Hs.
  - intros Hs. apply containsCI_spec. apply Ha. exact Hs.
  - intros Hs. specialize (Hg Hs). destruct (Book.category b) as [c |]; [| discriminate Hg].
    apply String.eqb_eq in Hg. rewrite Hg. reflexivity.
Qed.

(** X3: on every runtime, whatever the page number (also below 1), the
    page [loadBooks]
    leaves holds at most eight books, each of them one of the books
    fetched, and each passes every filter whose string is not blank: its
    title contains the search string and its author the author string,
    letter case apart, and its category is the chosen one. *)
Theorem X3_page_holds_matching_books_only :
  forall (R : JS.Runtime) (allBooks : list Book.t) (s : Catalog.State),
    let shown := Catalog.books (Catalog.loadBooksOn R (Some allBooks) s) in
    (List.length shown <= 8)%nat /\
    forall b, In b shown ->
      In b allBooks /\
      (CatalogSpec.nonBlank R (Catalog.search s) = true ->
       CatalogSpec.ContainsCI R (Catalog.search s) (Book.title b)) /\
      (CatalogSpec.nonBlank R (Catalog.author s) = true ->
       CatalogSpec.ContainsCI R (Catalog.author s) (Book.author b)) /\
      (CatalogSpec.nonBlank R (Catalog.genre s) = true ->
       Book.category b = Some (Catalog.genre s)).
Proof.
  intros R allBooks s shown. subst shown. rewrite loadBooksOn_books. split.
  - apply slice_window_length.
  - intros b Hin. apply in_slice in Hin. cbv zeta in Hin.
    apply (Permutation_in _ (ordered_perm _ _)) in Hin.
    apply in_filtered. exact Hin.
Qed.

Lemma X3_page_holds_matching_books_only_witness :
  let s := Catalog.setAuthor "LEE" Catalog.initial in
  let b := Book.mk "2" "To Kill a Mockingbird" "Harper Lee" (1099 # 100)
             "https://placehold.co/200x300?text=Mockingbird" None None in
  In b (Catalog.books (Catalog.loadBooksOn JS.asciiRuntime
                         (Some BookService.fetchFeaturedBooks) s)) /\
  CatalogSpec.ContainsCI JS.asciiRuntime "LEE" (Book.author b).
Proof.
  cbv zeta.
  assert (Hin : In (Book.mk "2" "To Kill a Mockingbird" "Harper Lee" (1099 # 100)
                      "https://placehold.co/200x300?text=Mockingbird" None None)
                   (Catalog.books (Catalog.loadBooksOn JS.asciiRuntime
                                     (Some BookService.fetchFeaturedBooks)
                                     (Catalog.setAuthor "LEE" Catalog.initial)))).
  { vm_compute. left. reflexivity. }
  split; [exact Hin |].
  destruct (X3_page_holds_matching_books_only JS.asciiRuntime BookService.fetchFeaturedBooks
              (Catalog.setAuthor "LEE" Catalog.initial)) as [_ Hall].
  destruct (Hall _ Hin) as [_ [_ [Hauthor _]]].
  apply Hauthor. reflexivity.
Defined.

Lemma nth_error_page (l : list Book.t) (i : nat) :
  nth_error (CatalogSpec.pageOf (Z.of_nat (i / 8) + 1) l) (i mod 8) = nth_error l i.
Proof.
  unfold CatalogSpec.pageOf, CatalogSpec.pageSize.
  rewrite nth_error_firstn.
  pose proof (Nat.mod_upper_bound i 8 ltac:(discriminate)) as Hlt.
  destruct (Nat.ltb_spec (i mod 8) 8) as [_ | Hge]; [| lia].
  rewrite nth_error_skipn. f_equal.
  replace (Z.to_nat (Z.of_nat (i / 8) + 1 - 1)) with (i / 8)%nat by lia.
  pose proof (Nat.div_mod_eq i 8). lia.
Qed.

(** X4: paging loses no book.  On every runtime, for every book list and
    filter state
    there is one arrangement of the filtered books of which every page
    from 1 upwards shows its own eight, and the book at place i of that
    arrangement (counted from 0) is at place i mod 8 of page
    i div 8 + 1. *)
Theorem X4_every_match_is_on_a_page :
  forall (R : JS.Runtime) (allBooks : list Book.t) (s : Catalog.State),
  exists ordered,
    Permutation ordered
      (CatalogSpec.filtered R (CatalogSpec.nonBlank R)
         (Catalog.search s) (Catalog.author s) (Catalog.genre s) allBooks) /\
    (forall p, 1 <= p ->
       Catalog.books (Catalog.loadBooksOn R (Some allBooks) (Catalog.setPage p s))
       = CatalogSpec.pageOf p ordered) /\
    (forall (i : nat) (b : Book.t),
       nth_error ordered i = Some b ->
       nth_error
         (Catalog.books
            (Catalog.loadBooksOn R (Some allBooks)
               (Catalog.setPage (Z.of_nat (i / 8) + 1) s)))
         (i mod 8) = Some b).
Proof.
  intros R allBooks s.
  eexists. split; [apply ordered_perm |].
  assert (Hpage : forall p, 1 <= p ->
            Catalog.books (Catalog.loadBooksOn R (Some allBooks) (Catalog.setPage p s))
            = CatalogSpec.pageOf p
                (if String.eqb (Catalog.sort s) "priceAsc"
                 then JS.sort Catalog.byPriceAsc
                        (CatalogSpec.filtered R (CatalogSpec.nonBlank R)
                           (Catalog.search s) (Catalog.author s) (Catalog.genre s) allBooks)
                 else if String.eqb (Catalog.sort s) "priceDesc"
                 then JS.sort Catalog.byPriceDesc
                        (CatalogSpec.filtered R (CatalogSpec.nonBlank R)
                           (Catalog.search s) (Catalog.author s) (Catalog.genre s) allBooks)
                 else if String.eqb (Catalog.sort s) "releaseDate"
                 then JS.sort Catalog.byReleaseDate
                        (CatalogSpec.filtered R (CatalogSpec.nonBlank R)
                           (Catalog.search s) (Catalog.author s) (Catalog.genre s) allBooks)
                 else CatalogSpec.filtered R (CatalogSpec.nonBlank R)
                        (Catalog.search s) (Catalog.author s) (Catalog.genre s) allBooks)).
  { intros p Hp. rewrite loadBooksOn_books.
    cbn [Catalog.setPage Catalog.page Catalog.search Catalog.author Catalog.genre Catalog.sort].
    cbv zeta. apply pageOf_slice. exact Hp. }
  split; [exact Hpage |].
  intros i b Hnth. rewrite Hpage by lia. rewrite nth_error_page. exact Hnth.
Qed.

Lemma X4_every_match_is_on_a_page_witness :
  exists ordered,
    Permutation ordered BookService.fetchFeaturedBooks /\
    Catalog.books (Catalog.loadBooksOn JS.asciiRuntime (Some BookService.fetchFeaturedBooks)
                     (Catalog.setPage 1 Catalog.initial))
    = CatalogSpec.pageOf 1 ordered.
Proof.
  destruct (X4_every_match_is_on_a_page JS.asciiRuntime BookService.fetchFeaturedBooks
              Catalog.initial)
    as [ordered [Hperm [Hpages _]]].
  exists ordered. split; [exact Hperm | apply Hpages; lia].
Defined.

(** X5: Prev undoes Next and, off page 1, Next undoes Prev.  For a
    state with page number at least 1, pressing Next and then Prev gives
    the state back; pressing Prev and then Next gives it back unless the
    page is 1, where Prev is disabled and the two leave page 2. *)
Theorem X5_prev_undoes_next :
  forall s : Catalog.State,
    1 <= Catalog.page s ->
    Catalog.onPrevClick (Catalog.onNextClick s) = s /\
    (Catalog.page s <> 1 -> Catalog.onNextClick (Catalog.onPrevClick s) = s) /\
    (Catalog.page s = 1 -> Catalog.page (Catalog.onNextClick (Catalog.onPrevClick s)) = 2).
Proof.
  intros [books search author genre sort page error loading] Hpage.
  cbn [Catalog.page] in Hpage.
  unfold Catalog.onPrevClick, Catalog.onNextClick, Catalog.prevDisabled, Catalog.setPage.
  cbn [Catalog.page Catalog.books Catalog.search Catalog.author Catalog.genre
       Catalog.sort Catalog.error Catalog.loading].
  split; [| split].
  - destruct (Z.eqb_spec (page + 1) 1) as [E | _]; [lia |].
    f_equal. lia.
  - intros Hne. destruct (Z.eqb_spec page 1) as [E | _]; [contradiction |].
    cbn [Catalog.page Catalog.books Catalog.search Catalog.author Catalog.genre
         Catalog.sort Catalog.error Catalog.loading].
    f_equal. lia.
  - intros ->. reflexivity.
Qed.

Lemma X5_prev_undoes_next_witness :
  Catalog.onPrevClick (Catalog.onNextClick Catalog.initial) = Catalog.initial.
Proof.
  apply (X5_prev_undoes_next Catalog.initial). simpl. lia.
Defined.

(** ** The catalog: letter case of the filter strings *)

Lemma byTitle_same_case (R : JS.Runtime) (q1 q2 : string) (l : list Book.t) :
  JS.toLowerCase R q1 = JS.toLowerCase R q2 ->
  CatalogSpec.nonBlank R q1 = CatalogSpec.nonBlank R q2 ->
  CatalogSpec.stage (CatalogSpec.nonBlank R) (CatalogSpec.byTitle R) q1 l
  = CatalogSpec.stage (CatalogSpec.nonBlank R) (CatalogSpec.byTitle R) q2 l.
Proof.
  intros H Hb. unfold CatalogSpec.stage, CatalogSpec.byTitle, CatalogSpec.containsCI.
  rewrite Hb, H. reflexivity.
Qed.

Lemma byAuthor_same_case (R : JS.Runtime) (q1 q2 : string) (l : list Book.t) :
  JS.toLowerCase R q1 = JS.toLowerCase R q2 ->
  CatalogSpec.nonBlank R q1 = CatalogSpec.nonBlank R q2 ->
  CatalogSpec.stage (CatalogSpec.nonBlank R) (CatalogSpec.byAuthor R) q1 l
  = CatalogSpec.stage (CatalogSpec.nonBlank R) (CatalogSpec.byAuthor R) q2 l.
Proof.
  intros H Hb. unfold CatalogSpec.stage, CatalogSpec.byAuthor, CatalogSpec.containsCI.
  rewrite Hb, H. reflexivity.
Qed.

(** X6: the letter case of what is typed does not matter.  On every
    runtime, two search strings, or two author strings, that have the
    same lower-case form and are both blank or both not blank give the
    same books on the page and the same message, for every book list and
    every state of the other controls. *)
Theorem X6_filters_ignore_letter_case :
  forall (R : JS.Runtime) (allBooks : list Book.t) (s : Catalog.State) (q1 q2 : string),
    JS.toLowerCase R q1 = JS.toLowerCase R q2 ->
    CatalogSpec.nonBlank R q1 = CatalogSpec.nonBlank R q2 ->
    (Catalog.books (Catalog.loadBooksOn R (Some allBooks) (Catalog.setSearch q1 s))
     = Catalog.books (Catalog.loadBooksOn R (Some allBooks) (Catalog.setSearch q2 s)) /\
     Catalog.shownMessage (Catalog.loadBooksOn R (Some allBooks) (Catalog.setSearch q1 s))
     = Catalog.shownMessage (Catalog.loadBooksOn R (Some allBooks) (Catalog.setSearch q2 s))) /\
    (Catalog.books (Catalog.loadBooksOn R (Some allBooks) (Catalog.setAuthor q1 s))
     = Catalog.books (Catalog.loadBooksOn R (Some allBooks) (Catalog.setAuthor q2 s)) /\
     Catalog.shownMessage (Catalog.loadBooksOn R (Some allBooks) (Catalog.setAuthor q1 s))
     = Catalog.shownMessage (Catalog.loadBooksOn R (Some allBooks) (Catalog.setAuthor q2 s))).
Proof.
  intros R allBooks s q1 q2 H Hb.
  assert (Hs : Catalog.books (Catalog.loadBooksOn R (Some allBooks) (Catalog.setSearch q1 s))
               = Catalog.books (Catalog.loadBooksOn R (Some allBooks) (Catalog.setSearch q2 s))).
  { rewrite !loadBooksOn_books. unfold CatalogSpec.filtered.
    cbn [Catalog.setSearch Catalog.page Catalog.search Catalog.author Catalog.genre Catalog.sort].
    rewrite (byTitle_same_case R q1 q2 allBooks H Hb). reflexivity. }
  assert (Ha : Catalog.books (Catalog.loadBooksOn R (Some allBooks) (Catalog.setAuthor q1 s))
               = Catalog.books (Catalog.loadBooksOn R (Some allBooks) (Catalog.setAuthor q2 s))).
  { rewrite !loadBooksOn_books. unfold CatalogSpec.filtered.
    cbn [Catalog.setAuthor Catalog.page Catalog.search Catalog.author Catalog.genre Catalog.sort].
    rewrite (byAuthor_same_case R q1 q2 _ H Hb). reflexivity. }
  split; (split; [assumption | rewrite !loadBooksOn_message; (rewrite Hs || rewrite Ha); reflexivity]).
Qed.

Lemma X6_filters_ignore_letter_case_witness :
  Catalog.books (Catalog.loadBooksOn JS.asciiRuntime (Some BookService.fetchFeaturedBooks)
                   (Catalog.setAuthor "ORWELL" Catalog.initial))
  = Catalog.books (Catalog.loadBooksOn JS.asciiRuntime (Some BookService.fetchFeaturedBooks)
                     (Catalog.setAuthor "Orwell" Catalog.initial)).
Proof.
  apply (X6_filters_ignore_letter_case JS.asciiRuntime BookService.fetchFeaturedBooks
           Catalog.initial "ORWELL" "Orwell").
  - reflexivity.
  - reflexivity.
Defined.

(** ** The review service: submit, approve, fetch *)

Lemma approveReview_app (reviewId : string) (a b : ReviewService.Store) :
  ReviewService.approveReview reviewId (a ++ b)%list
  = (ReviewService.approveReview reviewId a ++ ReviewService.approveReview reviewId b)%list.
Proof. unfold ReviewService.approveReview. apply map_app. Qed.

Lemma fetchReviews_app (bookId : string) (a b : ReviewService.Store) :
  ReviewService.fetchReviews bookId (a ++ b)%list
  = (ReviewService.fetchReviews bookId a ++ ReviewService.fetchReviews bookId b)%list.
Proof. unfold ReviewService.fetchReviews. apply filter_app. Qed.

(** X7: a submitted review is listed only once it is approved, and then
    for every book.  Right after submitReview the list fetchReviews
    gives, for any book id, is what it was; after approveReview with the
    id of the new review the list is the one approval gives for the old
    store followed by the new review, with the user, rating and comment
    that were submitted. *)
Theorem X7_review_is_listed_once_approved :
  forall (now : Z) (bookA bookB : string) (newReview : ReviewService.NewReview)
         (store : ReviewService.Store),
    let store1 := fst (ReviewService.submitReview now bookA newReview store) in
    let review := snd (ReviewService.submitReview now bookA newReview store) in
    ReviewService.fetchReviews bookB store1 = ReviewService.fetchReviews bookB store /\
    ReviewService.fetchReviews bookB (ReviewService.approveReview (ReviewService.id review) store1)
    = (ReviewService.fetchReviews bookB
         (ReviewService.approveReview (ReviewService.id review) store)
       ++ [ReviewService.mkReview (JS.ToString now) (ReviewService.newUser newReview)
             (ReviewService.newRating newReview) (ReviewService.newComment newReview) true])%list.
Proof.
  intros now bookA bookB newReview store store1 review. subst store1 review. simpl.
  split.
  - rewrite fetchReviews_app. simpl. apply app_nil_r.
  - rewrite approveReview_app, fetchReviews_app. simpl.
    rewrite String.eqb_refl. reflexivity.
Qed.

Lemma approveReview_idem (reviewId : string) (store : ReviewService.Store) :
  ReviewService.approveReview reviewId (ReviewService.approveReview reviewId store)
  = ReviewService.approveReview reviewId store.
Proof.
  unfold ReviewService.approveReview. rewrite map_map. apply map_ext.
  intros r. destruct (String.eqb (ReviewService.id r) reviewId) eqn:E; simpl.
  - rewrite E. reflexivity.
  - rewrite E. reflexivity.
Qed.

Lemma approveReview_comm (i j : string) (store : ReviewService.Store) :
  ReviewService.approveReview i (ReviewService.approveReview j store)
  = ReviewService.approveReview j (ReviewService.approveReview i store).
Proof.
  unfold ReviewService.approveReview. rewrite !map_map. apply map_ext.
  intros r.
  destruct (String.eqb (ReviewService.id r) i) eqn:Ei;
    destruct (String.eqb (ReviewService.id r) j) eqn:Ej; simpl;
    rewrite ?Ei, ?Ej; reflexivity.
Qed.

Lemma approveReview_unknown (reviewId : string) (store : ReviewService.Store) :
  ~ In reviewId (map ReviewService.id store) ->
  ReviewService.approveReview reviewId store = store.
Proof.
  unfold ReviewService.approveReview.
  induction store as [| r store IH]; intros Hfresh; simpl.
  - reflexivity.
  - destruct (String.eqb_spec (ReviewService.id r) reviewId) as [E | NE].
    + exfalso. apply Hfresh. left. exact E.
    + f_equal. apply IH. intros Hin. apply Hfresh. right. exact Hin.
Qed.

Lemma approveReview_keeps_content (reviewId : string) (store : ReviewService.Store) :
  Forall2 (fun r r' =>
             ReviewService.id r' = ReviewService.id r /\
             ReviewService.user r' = ReviewService.user r /\
             ReviewService.rating r' = ReviewService.rating r /\
             ReviewService.comment r' = ReviewService.comment r /\
             (ReviewService.approved r = true -> ReviewService.approved r' = true))
          store (ReviewService.approveReview reviewId store).
Proof.
  unfold ReviewService.approveReview.
  induction store as [| r store IH]; simpl; constructor.
  - destruct (String.eqb (ReviewService.id r) reviewId); simpl; repeat split; auto.
  - exact IH.
Qed.

(** X8: approveReview changes nothing but approved flags, and only
    upwards.  It keeps the number and order of the reviews and the id,
    user, rating and comment of each; an approved review stays approved;
    approving twice is approving once; approvals commute; and an id that
    no review has leaves the store as it is. *)
Theorem X8_approval_only_raises_flags :
  forall (store : ReviewService.Store) (i j : string),
    Forall2 (fun r r' =>
               ReviewService.id r' = ReviewService.id r /\
               ReviewService.user r' = ReviewService.user r /\
               ReviewService.rating r' = ReviewService.rating r /\
               ReviewService.comment r' = ReviewService.comment r /\
               (ReviewService.approved r = true -> ReviewService.approved r' = true))
            store (ReviewService.approveReview i store) /\
    ReviewService.approveReview i (ReviewService.approveReview i store)
      = ReviewService.approveReview i store /\
    ReviewService.approveReview i (ReviewService.approveReview j store)
      = ReviewService.approveReview j (ReviewService.approveReview i store) /\
    (~ In i (map ReviewService.id store) -> ReviewService.approveReview i store = store).
Proof.
  intros store i j.
  split; [apply approveReview_keeps_content |].
  split; [apply approveReview_idem |].
  split; [apply approveReview_comm | apply approveReview_unknown].
Qed.

Lemma X8_approval_only_raises_flags_witness :
  ReviewService.approveReview "7" ReviewService.mockReviews = ReviewService.mockReviews.
Proof.
  destruct (X8_approval_only_raises_flags ReviewService.mockReviews "7" "1")
    as [_ [_ [_ Hunknown]]].
  apply Hunknown. simpl. intros [H | [H | []]]; discriminate H.
Defined.

(** X9: review ids are not unique.  Two reviews submitted while
    Date.now() gives the same value get the same id, and one call of
    approveReview with that id approves both: both are listed after it. *)
Theorem X9_same_instant_same_id :
  forall (now : Z) (book1 book2 bookB : string)
         (first second : ReviewService.NewReview) (store : ReviewService.Store),
    let store1 := fst (ReviewService.submitReview now book1 first store) in
    let r1 := snd (ReviewService.submitReview now book1 first store) in
    let store2 := fst (ReviewService.submitReview now book2 second store1) in
    let r2 := snd (ReviewService.submitReview now book2 second store1) in
    ReviewService.id r1 = ReviewService.id r2 /\
    ReviewService.fetchReviews bookB (ReviewService.approveReview (ReviewService.id r1) store2)
    = (ReviewService.fetchReviews bookB
         (ReviewService.approveReview (ReviewService.id r1) store)
       ++ [ReviewService.mkReview (JS.ToString now) (ReviewService.newUser first)
             (ReviewService.newRating first) (ReviewService.newComment first) true;
           ReviewService.mkReview (JS.ToString now) (ReviewService.newUser second)
             (ReviewService.newRating second) (ReviewService.newComment second) true])%list.
Proof.
  intros now book1 book2 bookB first second store store1 r1 store2 r2.
  subst store1 r1 store2 r2. simpl. split; [reflexivity |].
  rewrite !approveReview_app, !fetchReviews_app. simpl.
  rewrite String.eqb_refl. simpl. rewrite <- app_assoc. reflexivity.
Qed.

(** ** The review section: submitting *)

(** X10: a complete review from a logged-in user is submitted exactly
    once.  On every runtime, with a token, a rating other than 0 and a
    comment of which [trim] leaves something, the handler calls submitReview once, with the user's name (or
    "Anonymous" when the name is missing or empty), the rating and the
    comment as typed; the store gains that one review, unapproved, with
    id String(Date.now()); the form is emptied and the pending message
    shown; the list of reviews on screen is not touched. *)
Theorem X10_complete_review_is_submitted_once :
  forall (R : JS.Runtime) (now : Z) (user : ReviewSection.User) (bookId : string)
         (store0 : ReviewService.Store) (s : ReviewSection.State),
    ReviewSection.truthyOpt (ReviewSection.token user) = true ->
    ReviewSection.newRating s <> 0 ->
    JS.trim R (ReviewSection.newComment s) <> "" ->
    let author := match ReviewSection.name user with
                  | Some n => if JS.truthy n then n else "Anonymous"
                  | None => "Anonymous"
                  end in
    let out := ReviewSection.handleSubmit R now user bookId store0 s in
    ReviewSection.submitCalls out
      = [(bookId, ReviewService.mkNew author (ReviewSection.newRating s)
                    (ReviewSection.newComment s))] /\
    ReviewSection.store out
      = (store0 ++ [ReviewService.mkReview (JS.ToString now) author
                      (ReviewSection.newRating s) (ReviewSection.newComment s) false])%list /\
    ReviewSection.state out
      = ReviewSection.mkState (ReviewSection.reviews s) "" 0 false
          "Your review has been submitted and is pending approval.".
Proof.
  intros R now user bookId store0 s Htoken Hrating Hcomment author out. subst out author.
  unfold ReviewSection.handleSubmit. rewrite Htoken.
  destruct (Z.eqb_spec (ReviewSection.newRating s) 0) as [E | _]; [contradiction |].
  destruct (String.eqb_spec (JS.trim R (ReviewSection.newComment s)) "") as [E | _];
    [contradiction |].
  cbn [negb orb].
  destruct (ReviewSection.name user) as [n |]; simpl.
  - destruct (JS.truthy n); repeat split.
  - repeat split.
Qed.

Lemma X10_complete_review_is_submitted_once_witness :
  let user := ReviewSection.mkUser (Some "") (Some "mock-jwt-token") in
  let s := ReviewSection.mkState [] " Great. " 5 false "" in
  let out := ReviewSection.handleSubmit JS.asciiRuntime 1700000000000 user "3"
               ReviewService.mockReviews s in
  ReviewSection.store out
  = (ReviewService.mockReviews
     ++ [ReviewService.mkReview "1700000000000" "Anonymous" 5 " Great. " false])%list.
Proof.
  cbv zeta.
  destruct (X10_complete_review_is_submitted_once JS.asciiRuntime 1700000000000
              (ReviewSection.mkUser (Some "") (Some "mock-jwt-token")) "3"
              ReviewService.mockReviews (ReviewSection.mkState [] " Great. " 5 false ""))
    as [_ [Hstore _]].
  - reflexivity.
  - simpl. discriminate.
  - vm_compute. discriminate.
  - exact Hstore.
Defined.

Lemma handleSubmit_cases (R : JS.Runtime) (now : Z) (user : ReviewSection.User) (bookId : string)
    (store0 : ReviewService.Store) (s : ReviewSection.State) :
  let out := ReviewSection.handleSubmit R now user bookId store0 s in
  (ReviewSection.store out = store0 /\
   ReviewSection.submitCalls out = [] /\
   ReviewSection.reviews (ReviewSection.state out) = ReviewSection.reviews s /\
   ReviewSection.newRating (ReviewSection.state out) = ReviewSection.newRating s /\
   ReviewSection.newComment (ReviewSection.state out) = ReviewSection.newComment s) \/
  (exists r,
     ReviewSection.store out = (store0 ++ [r])%list /\
     ReviewSection.submitCalls out
       = [(bookId, ReviewService.mkNew (ReviewService.user r) (ReviewService.rating r)
                     (ReviewService.comment r))] /\
     ReviewService.approved r = false /\
     ReviewService.rating r = ReviewSection.newRating s /\
     ReviewService.rating r <> 0 /\
     JS.trim R (ReviewService.comment r) <> "" /\
     ReviewSection.reviews (ReviewSection.state out) = ReviewSection.reviews s /\
     ReviewSection.newRating (ReviewSection.state out) = 0 /\
     ReviewSection.newComment (ReviewSection.state out) = "").
Proof.
  cbv zeta. unfold ReviewSection.handleSubmit.
  destruct (ReviewSection.truthyOpt (ReviewSection.token user)); cbn [negb].
  - destruct (Z.eqb_spec (ReviewSection.newRating s) 0) as [E | NE]; cbn [orb].
    + left. repeat split.
    + destruct (String.eqb_spec (JS.trim R (ReviewSection.newComment s)) "") as [E | NE'].
      * left. repeat split.
      * right. simpl. eexists. split; [reflexivity |]. simpl.
        repeat split; assumption.
  - left. repeat split.
Qed.

(** X11: submitting never changes what is on screen.  On every runtime,
    whatever is
    submitted and by whom, the list of reviews the section holds and the
    average it displays stay as they were, and they would stay so after
    loading the reviews again, for any book: the store gains at most one
    review, and that one is not approved. *)
Theorem X11_submitting_leaves_the_display :
  forall (R : JS.Runtime) (now : Z) (user : ReviewSection.User) (bookId bookB : string)
         (store0 : ReviewService.Store) (s : ReviewSection.State),
    let out := ReviewSection.handleSubmit R now user bookId store0 s in
    ReviewSection.reviews (ReviewSection.state out) = ReviewSection.reviews s /\
    ReviewSection.averageRating (ReviewSection.state out) = ReviewSection.averageRating s /\
    ReviewService.fetchReviews bookB (ReviewSection.store out)
      = ReviewService.fetchReviews bookB store0 /\
    ReviewSection.averageRating
      (ReviewSection.loadReviews bookB (ReviewSection.store out) (ReviewSection.state out))
      = ReviewSection.averageRating (ReviewSection.loadReviews bookB store0 s) /\
    (List.length (ReviewSection.store out) <= S (List.length store0))%nat.
Proof.
  intros R now user bookId bookB store0 s out.
  assert (Hrev : ReviewSection.reviews (ReviewSection.state out) = ReviewSection.reviews s).
  { destruct (handleSubmit_cases R now user bookId store0 s)
      as [[_ [_ [H _]]] | [r [_ [_ [_ [_ [_ [_ [H _]]]]]]]]]; exact H. }
  assert (Hfetch : ReviewService.fetchReviews bookB (ReviewSection.store out)
                   = ReviewService.fetchReviews bookB store0).
  { destruct (handleSubmit_cases R now user bookId store0 s)
      as [[H _] | [r [H [_ [Happ _]]]]]; fold out in H; rewrite H.
    - reflexivity.
    - rewrite fetchReviews_app. simpl. rewrite Happ. apply app_nil_r. }
  split; [exact Hrev |].
  split; [unfold ReviewSection.averageRating; rewrite Hrev; reflexivity |].
  split; [exact Hfetch |].
  split.
  - unfold ReviewSection.averageRating, ReviewSection.loadReviews.
    cbn [ReviewSection.reviews ReviewSection.setReviews]. rewrite Hfetch. reflexivity.
  - destruct (handleSubmit_cases R now user bookId store0 s)
      as [[H _] | [r [H _]]]; fold out in H; rewrite H.
    + lia.
    + rewrite length_app. simpl. lia.
Qed.

Lemma step_keeps_form_sound (R : JS.Runtime) (e : ReviewForm.Event)
    (s : ReviewSection.State) (store : ReviewService.Store) :
  ReviewForm.possible e ->
  0 <= ReviewSection.newRating s <= 5 ->
  0 <= ReviewSection.newRating (fst (ReviewForm.step R e (s, store))) <= 5 /\
  exists suffix,
    snd (ReviewForm.step R e (s, store)) = (store ++ suffix)%list /\
    Forall (fun r => 1 <= ReviewService.rating r <= 5 /\
                     ReviewService.approved r = false /\
                     JS.trim R (ReviewService.comment r) <> "") suffix.
Proof.
  intros Hposs Hbound. destruct e as [star | text | now user bookId]; simpl.
  - split.
    + simpl in Hposs. destruct Hposs as [<- | [<- | [<- | [<- | [<- | []]]]]]; lia.
    + exists []. split; [symmetry; apply app_nil_r | constructor].
  - split; [exact Hbound |].
    exists []. split; [symmetry; apply app_nil_r | constructor].
  - destruct (handleSubmit_cases R now user bookId store s)
      as [[Hst [_ [_ [Hr _]]]] | [r [Hst [_ [Happ [Heq [Hne [Hc [_ [Hr _]]]]]]]]]].
    + split; [rewrite Hr; exact Hbound |].
      exists []. split; [rewrite Hst; symmetry; apply app_nil_r | constructor].
    + split; [rewrite Hr; lia |].
      exists [r]. split; [exact Hst |].
      constructor; [| constructor].
      split; [lia | split; assumption].
Qed.

(** X12: the form only ever submits ratings from 1 to 5.  On every
    runtime, starting from
    a rating between 0 and 5, after any run of star clicks (on one of
    the five stars), typing and submissions, the rating of the form is
    still between 0 and 5, the store is the old one followed by the
    reviews submitted, and each of those has a rating from 1 to 5, a
    comment that is not blank, and is not approved. *)
Theorem X12_form_submits_ratings_one_to_five :
  forall (R : JS.Runtime) (events : list ReviewForm.Event)
         (s : ReviewSection.State) (store : ReviewService.Store),
    Forall ReviewForm.possible events ->
    0 <= ReviewSection.newRating s <= 5 ->
    0 <= ReviewSection.newRating (fst (ReviewForm.run R events (s, store))) <= 5 /\
    exists suffix,
      snd (ReviewForm.run R events (s, store)) = (store ++ suffix)%list /\
      Forall (fun r => 1 <= ReviewService.rating r <= 5 /\
                       ReviewService.approved r = false /\
                       JS.trim R (ReviewService.comment r) <> "") suffix.
Proof.
  intros R events. unfold ReviewForm.run.
  induction events as [| e events IH]; intros s store Hposs Hbound.
  - simpl. split; [exact Hbound |].
    exists []. split; [symmetry; apply app_nil_r | constructor].
  - inversion Hposs as [| ? ? He Hrest]; subst.
    change (fold_left (fun w e0 => ReviewForm.step R e0 w) (e :: events) (s, store))
      with (fold_left (fun w e0 => ReviewForm.step R e0 w) events (ReviewForm.step R e (s, store))).
    pose proof (step_keeps_form_sound R e s store He Hbound) as Hstep.
    destruct (ReviewForm.step R e (s, store)) as [s1 store1].
    cbn [fst snd] in Hstep. destruct Hstep as [Hb1 [suffix1 [Hs1 Hgood1]]].
    destruct (IH s1 store1 Hrest Hb1) as [Hb2 [suffix2 [Hs2 Hgood2]]].
    split; [exact Hb2 |].
    exists (suffix1 ++ suffix2)%list. split.
    + rewrite Hs2, Hs1. symmetry. apply app_assoc.
    + apply Forall_app. split; assumption.
Qed.

Lemma X12_form_submits_ratings_one_to_five_witness :
  let user := ReviewSection.mkUser (Some "John Doe") (Some "mock-jwt-token") in
  let events := [ReviewForm.ClickStar 4; ReviewForm.TypeComment "Good.";
                 ReviewForm.Submit 1700000000000 user "1"] in
  0 <= ReviewSection.newRating
         (fst (ReviewForm.run JS.asciiRuntime events
                 (ReviewSection.initial, ReviewService.mockReviews))) <= 5.
Proof.
  cbv zeta.
  apply (X12_form_submits_ratings_one_to_five JS.asciiRuntime
           [ReviewForm.ClickStar 4; ReviewForm.TypeComment "Good.";
            ReviewForm.Submit 1700000000000
              (ReviewSection.mkUser (Some "John Doe") (Some "mock-jwt-token")) "1"]
           ReviewSection.initial ReviewService.mockReviews).
  - constructor; [simpl; right; right; right; left; reflexivity |].
    constructor; [exact I |]. constructor; [exact I | constructor].
  - simpl. lia.
Defined.

(** ** The stars *)

Lemma starIsFilled_floor (r : Q) (star : Z) :
  StarRating.starIsFilled (Some r) star = (star <=? Qfloor r)%Z.
Proof.
  unfold StarRating.starIsFilled.
  destruct (Z.leb_spec star (Qfloor r)) as [Hle | Hgt].
  - apply Qle_bool_iff. apply Qle_trans with (inject_Z (Qfloor r)).
    + rewrite <- Zle_Qle. exact Hle.
    + apply Qfloor_le.
  - destruct (Qle_bool (inject_Z star) r) eqn:E; [| reflexivity].
    apply Qle_bool_iff in E. apply Qfloor_resp_le in E. rewrite Qfloor_Z in E. lia.
Qed.

(** X14: the stars show the whole part of the rating, kept within 0 to
    5.  For every number the row is k filled stars followed by 5 - k
    empty ones, where k is the floor of the rating cut to the range
    from 0 to 5; for NaN (the average "N/A") no star is filled.  A click
    reaches the change handler only on an editable row that has one. *)
Theorem X14_stars_show_the_floor :
  (forall r : Q,
     let k := Z.to_nat (Z.min 5 (Z.max 0 (Qfloor r))) in
     StarRating.render (Some r) = (repeat true k ++ repeat false (5 - k))%list) /\
  StarRating.render None = repeat false 5 /\
  (forall (S : Type) (f : Z -> S -> S) (star : Z) (s : S),
     StarRating.onClick true (Some f) star s = f star s /\
     StarRating.onClick false (Some f) star s = s /\
     StarRating.onClick true None star s = s).
Proof.
  split; [| split].
  - intros r k. subst k. unfold StarRating.render. cbn [map].
    rewrite !starIsFilled_floor.
    set (m := Qfloor r).
    destruct (Z.leb_spec 1 m), (Z.leb_spec 2 m), (Z.leb_spec 3 m),
             (Z.leb_spec 4 m), (Z.leb_spec 5 m); try lia;
      match goal with
      | |- _ = (repeat true ?k ++ _)%list =>
          first [ replace k with 0%nat by lia
                | replace k with 1%nat by lia
                | replace k with 2%nat by lia
                | replace k with 3%nat by lia
                | replace k with 4%nat by lia
                | replace k with 5%nat by lia ]
      end; reflexivity.
  - reflexivity.
  - intros S f star s. repeat split.
Qed.

(** ** The book page: wishlist and related books *)

Lemma find_id_none (i : string) (l : list Book.t) :
  find (fun b => String.eqb (Book.id b) i) l = None -> ~ In i (map Book.id l).
Proof.
  induction l as [| x l IH]; simpl.
  - intros _ [].
  - destruct (String.eqb_spec (Book.id x) i) as [E | NE]; [discriminate |].
    intros H [Hx | Hin]; [contradiction | exact (IH H Hin)].
Qed.

Lemma find_id_last (bk : Book.t) (l : list Book.t) :
  find (fun b => String.eqb (Book.id b) (Book.id bk)) (l ++ [bk])%list <> None.
Proof.
  induction l as [| x l IH]; simpl.
  - rewrite String.eqb_refl. discriminate.
  - destruct (String.eqb (Book.id x) (Book.id bk)); [discriminate | exact IH].
Qed.

(** X15: the wishlist never holds a book twice.  If the ids of the
    wishlist are distinct they are still distinct after
    handleAddToWishlist; the list keeps what it had and gains at most
    the book of the page, whose id is in it afterwards; pressing the
    button a second time changes nothing; and with no book loaded the
    button does nothing. *)
Theorem X15_wishlist_has_no_duplicates :
  forall s : BookDetail.State,
    (NoDup (map Book.id (BookDetail.wishlist s)) ->
     NoDup (map Book.id (BookDetail.wishlist (BookDetail.handleAddToWishlist s)))) /\
    (exists suffix,
       BookDetail.wishlist (BookDetail.handleAddToWishlist s)
         = (BookDetail.wishlist s ++ suffix)%list /\
       (List.length suffix <= 1)%nat) /\
    (forall bk, BookDetail.book s = Some bk ->
       In (Book.id bk) (map Book.id (BookDetail.wishlist (BookDetail.handleAddToWishlist s)))) /\
    BookDetail.handleAddToWishlist (BookDetail.handleAddToWishlist s)
      = BookDetail.handleAddToWishlist s /\
    (BookDetail.book s = None -> BookDetail.handleAddToWishlist s = s).
Proof.
  intros [book related wishlist]. unfold BookDetail.handleAddToWishlist.
  cbn [BookDetail.book BookDetail.wishlist BookDetail.related].
  destruct book as [bk |].
  - destruct (find (fun b => String.eqb (Book.id b) (Book.id bk)) wishlist) as [hit |] eqn:Efind.
    + cbn [BookDetail.book BookDetail.wishlist]. rewrite Efind.
      split; [auto |]. split; [exists []; split; [symmetry; apply app_nil_r | simpl; lia] |].
      split; [| split; [reflexivity | discriminate]].
      intros bk' Hbk. injection Hbk as <-.
      apply find_some in Efind. destruct Efind as [Hin Heq].
      apply String.eqb_eq in Heq. rewrite <- Heq. apply in_map. exact Hin.
    + cbn [BookDetail.book BookDetail.wishlist BookDetail.setWishlist BookDetail.related].
      split; [| split; [| split; [| split]]].
      * intros Hnd. rewrite map_app. simpl.
        apply NoDup_app; [exact Hnd | constructor; [intros [] | constructor] |].
        intros x Hx [Hy | []]. subst x. exact (find_id_none _ _ Efind Hx).
      * exists [bk]. split; [reflexivity | simpl; lia].
      * intros bk' Hbk. injection Hbk as <-.
        rewrite map_app. apply in_or_app. right. left. reflexivity.
      * destruct (find (fun b => String.eqb (Book.id b) (Book.id bk)) (wishlist ++ [bk])%list)
          eqn:E2; [reflexivity |].
        exfalso. exact (find_id_last bk wishlist E2).
      * discriminate.
  - cbn [BookDetail.book]. split; [auto |].
    split; [exists []; split; [symmetry; apply app_nil_r | simpl; lia] |].
    split; [discriminate | split; reflexivity].
Qed.

Lemma X15_wishlist_has_no_duplicates_witness :
  let gatsby := Book.mk "1" "The Great Gatsby" "F. Scott Fitzgerald" (1299 # 100) "" None None in
  let orwell := Book.mk "3" "1984" "George Orwell" (999 # 100) "" None None in
  let s := BookDetail.mkState (Some orwell) [] [gatsby] in
  NoDup (map Book.id (BookDetail.wishlist (BookDetail.handleAddToWishlist s))) /\
  In "3" (map Book.id (BookDetail.wishlist (BookDetail.handleAddToWishlist s))).
Proof.
  cbv zeta.
  destruct (X15_wishlist_has_no_duplicates
              (BookDetail.mkState
                 (Some (Book.mk "3" "1984" "George Orwell" (999 # 100) "" None None)) []
                 [Book.mk "1" "The Great Gatsby" "F. Scott Fitzgerald" (1299 # 100) "" None None]))
    as [Hnd [_ [Hin _]]].
  split.
  - apply Hnd. simpl. constructor; [intros [] | constructor].
  - apply (Hin (Book.mk "3" "1984" "George Orwell" (999 # 100) "" None None)). reflexivity.
Defined.

(** X16: the book page shows the book of the route and, as related
    books, exactly the other books of its category.  When loadBook finds
    a book, its id is the one of the route and it is one of the books
    fetched; a book is related exactly when it is in the list, has
    another id and the same category (two books without a category
    count as the same category).  When no book has the id of the route
    the page has no book and keeps the related books it had.  The
    wishlist is never touched. *)
Theorem X16_related_books_share_the_category :
  forall (allBooks : list Book.t) (routeId : option string) (s : BookDetail.State),
    let s' := BookDetail.loadBookOn allBooks routeId s in
    BookDetail.wishlist s' = BookDetail.wishlist s /\
    (forall cur, BookDetail.book s' = Some cur ->
       routeId = Some (Book.id cur) /\ In cur allBooks /\
       forall r, In r (BookDetail.related s') <->
                 In r allBooks /\ Book.id r <> Book.id cur /\
                 BookDetail.sameCategory (Book.category r) (Book.category cur) = true) /\
    ((forall b, In b allBooks -> routeId <> Some (Book.id b)) ->
     BookDetail.book s' = None /\ BookDetail.related s' = BookDetail.related s).
Proof.
  intros allBooks routeId s s'. subst s'. unfold BookDetail.loadBookOn.
  destruct (find (BookDetail.idIs routeId) allBooks) as [cur |] eqn:Efind.
  - cbn [BookDetail.wishlist BookDetail.book BookDetail.related
         BookDetail.setBook BookDetail.setRelated].
    apply find_some in Efind. destruct Efind as [Hin Hid].
    assert (Hroute : routeId = Some (Book.id cur)).
    { unfold BookDetail.idIs in Hid. destruct routeId as [i |]; [| discriminate Hid].
      apply String.eqb_eq in Hid. rewrite Hid. reflexivity. }
    split; [reflexivity |]. split.
    + intros cur' Hcur. injection Hcur as <-.
      split; [exact Hroute |]. split; [exact Hin |].
      intros r. rewrite filter_In, andb_true_iff, negb_true_iff.
      split.
      * intros [Hr [Hcat Hne]]. split; [exact Hr |]. split; [| exact Hcat].
        apply String.eqb_neq. exact Hne.
      * intros [Hr [Hne Hcat]]. split; [exact Hr |]. split; [exact Hcat |].
        apply String.eqb_neq. exact Hne.
    + intros Hnone. exfalso. exact (Hnone cur Hin Hroute).
  - cbn [BookDetail.wishlist BookDetail.book BookDetail.related BookDetail.setBook].
    split; [reflexivity |]. split; [discriminate |].
    intros _. split; reflexivity.
Qed.

Lemma X16_related_books_share_the_category_witness :
  let s' := BookDetail.loadBookOn BookService.fetchFeaturedBooks (Some "9")
              (BookDetail.mkState None [] []) in
  BookDetail.book s' = None /\ BookDetail.related s' = [].
Proof.
  cbv zeta.
  destruct (X16_related_books_share_the_category BookService.fetchFeaturedBooks (Some "9")
              (BookDetail.mkState None [] [])) as [_ [_ Hnone]].
  apply Hnone. intros b Hin Heq. simpl in Hin.
  destruct Hin as [<- | [<- | [<- | [<- | []]]]]; discriminate Heq.
Defined.

(** ** The card form: when it calls back and when it stays busy *)

(** X17: the card form either calls back or stays busy.  Before the
    form is ready (no stripe object, no elements, or no client secret,
    as after a failed initialisation) a submission changes nothing.
    Once ready: an error from the gateway calls the failure callback,
    ends loading and shows a message that is not empty; a succeeded
    intent whose verification resolved calls the success callback and
    ends loading; in every other case (no card element, no intent, an
    intent in another status, a verification that threw) no callback is
    called and the form is left loading, its submit button disabled. *)
Theorem X17_card_form_calls_back_or_stays_busy :
  forall (W : Type) (onSuccess onFailure : W -> W)
         (stripe elements hasCard : bool) (result : StripeForm.Confirmed) (verified : bool)
         (s : StripeForm.State) (w : W),
    let ready := stripe && elements && StripeForm.truthyOpt (StripeForm.clientSecret s) in
    let after := StripeForm.handleSubmit onSuccess onFailure stripe elements hasCard
                   result verified (s, w) in
    (ready = false -> after = (s, w)) /\
    (ready = true -> hasCard = true ->
     forall message, result = StripeForm.WithError message ->
       snd after = onFailure w /\
       StripeForm.loading (fst after) = false /\
       StripeForm.error (fst after) <> "") /\
    (ready = true -> hasCard = true ->
     result = StripeForm.WithIntent "succeeded" -> verified = true ->
       snd after = onSuccess w /\
       StripeForm.loading (fst after) = false /\
       StripeForm.error (fst after) = "") /\
    (ready = true ->
     hasCard = false \/ result = StripeForm.WithNothing \/
     (exists status, result = StripeForm.WithIntent status /\
                     (status <> "succeeded" \/ verified = false)) ->
       snd after = w /\
       StripeForm.loading (fst after) = true /\
       StripeForm.submitDisabled stripe (fst after) = true) /\
    (forall created,
       StripeForm.truthyOpt
         (StripeForm.clientSecret (StripeForm.initializePayment created StripeForm.initial))
       = StripeForm.truthyOpt created).
Proof.
  intros W onSuccess onFailure stripe elements hasCard result verified s w ready after.
  subst ready after. unfold StripeForm.handleSubmit.
  destruct stripe, elements, (StripeForm.truthyOpt (StripeForm.clientSecret s));
    cbn [andb negb orb];
    (split; [intros H; try discriminate H; try reflexivity |]);
    (split; [intros H; try discriminate H |]);
    try (split; [intros H'; try discriminate H' |]);
    try (split; [intros H''; try discriminate H'' |]);
    try (intros created; destruct created; reflexivity).
  - intros -> message ->. cbn [negb fst snd]. split; [reflexivity |].
    split; [reflexivity |].
    cbn [StripeForm.error StripeForm.setLoading StripeForm.setError].
    destruct message as [m |]; cbn [StripeForm.truthyOpt]; [| discriminate].
    destruct m; cbn [JS.truthy]; discriminate.
  - intros -> -> ->. cbn [negb fst snd]. rewrite String.eqb_refl.
    repeat split.
  - intros [-> | [-> | [status [-> Hwhy]]]].
    + cbn [negb fst snd]. repeat split.
    + destruct hasCard; cbn [negb fst snd]; repeat split.
    + destruct hasCard; cbn [negb fst snd]; [| repeat split].
      destruct (String.eqb_spec status "succeeded") as [E | NE].
      * destruct Hwhy as [Hs | ->]; [contradiction | repeat split].
      * repeat split.
Qed.

Lemma X17_card_form_calls_back_or_stays_busy_witness :
  let s := StripeForm.initializePayment (Some "pi_secret") StripeForm.initial in
  let after := StripeForm.handleSubmit Checkout.handleSuccess Checkout.handleFailure
                 true true true (StripeForm.WithIntent "processing") true
                 (s, Checkout.mkWorld (CartSlice.mkState []) [] "" "") in
  StripeForm.loading (fst after) = true /\ Checkout.dispatched (snd after) = [].
Proof.
  cbv zeta.
  destruct (X17_card_form_calls_back_or_stays_busy Checkout.World
              Checkout.handleSuccess Checkout.handleFailure
              true true true (StripeForm.WithIntent "processing") true
              (StripeForm.initializePayment (Some "pi_secret") StripeForm.initial)
              (Checkout.mkWorld (CartSlice.mkState []) [] "" ""))
    as [_ [_ [_ [Hbusy _]]]].
  destruct Hbusy as [Hw [Hl _]].
  - reflexivity.
  - right. right. exists "processing". split; [reflexivity | left; discriminate].
  - split; [exact Hl | rewrite Hw; reflexivity].
Defined.

(** ** The pattern matcher and the e-mail pattern *)

Lemma matches_empty_nullable (r : RegExp.t) (s : list N) :
  RegExp.Matches r s -> s = [] -> RegExp.nullable r = true.
Proof.
  induction 1 as [| p c Hp | r1 r2 s1 s2 _ IH1 _ IH2 | r1 r2 s _ IH | r1 r2 s _ IH
                  | r | r s1 s2 _ _ _ _]; intros E; simpl.
  - reflexivity.
  - discriminate E.
  - apply app_eq_nil in E. destruct E as [E1 E2].
    rewrite (IH1 E1), (IH2 E2). reflexivity.
  - rewrite (IH E). reflexivity.
  - rewrite (IH E). apply orb_true_r.
  - reflexivity.
  - reflexivity.
Qed.

Lemma nullable_matches_empty (r : RegExp.t) :
  RegExp.nullable r = true -> RegExp.Matches r [].
Proof.
  induction r as [| | p | r1 IH1 r2 IH2 | r1 IH1 r2 IH2 | r IH]; simpl; intros H.
  - discriminate H.
  - constructor.
  - discriminate H.
  - apply andb_true_iff in H. destruct H as [H1 H2].
    change (@nil N) with (@nil N ++ [])%list. constructor; auto.
  - apply orb_true_iff in H. destruct H as [H1 | H2].
    + apply RegExp.MOrL. auto.
    + apply RegExp.MOrR. auto.
  - constructor.
Qed.

Lemma derive_sound (r : RegExp.t) (c : N) (s : list N) :
  RegExp.Matches (RegExp.derive c r) s -> RegExp.Matches r (c :: s).
Proof.
  revert s. induction r as [| | p | r1 IH1 r2 IH2 | r1 IH1 r2 IH2 | r IH]; simpl; intros s H.
  - inversion H.
  - inversion H.
  - destruct (p c) eqn:Ep; inversion H; subst. constructor. exact Ep.
  - destruct (RegExp.nullable r1) eqn:En.
    + inversion H as [| | | ? ? ? Hl | ? ? ? Hr | |]; subst.
      * inversion Hl as [| | ? ? s1 s2 H1 H2 | | | |]; subst.
        change (c :: (s1 ++ s2)%list) with ((c :: s1) ++ s2)%list.
        constructor; auto.
      * change (c :: s) with ([] ++ c :: s)%list.
        constructor; [apply nullable_matches_empty; exact En | auto].
    + inversion H as [| | ? ? s1 s2 H1 H2 | | | |]; subst.
      change (c :: (s1 ++ s2)%list) with ((c :: s1) ++ s2)%list.
      constructor; auto.
  - inversion H; subst.
    + apply RegExp.MOrL. auto.
    + apply RegExp.MOrR. auto.
  - inversion H as [| | ? ? s1 s2 H1 H2 | | | |]; subst.
    change (c :: (s1 ++ s2)%list) with ((c :: s1) ++ s2)%list.
    apply RegExp.MStarCons; auto.
Qed.

Lemma derive_complete (r : RegExp.t) (t : list N) :
  RegExp.Matches r t ->
  forall c s, t = c :: s -> RegExp.Matches (RegExp.derive c r) s.
Proof.
  induction 1 as [| p c0 Hp | r1 r2 s1 s2 H1 IH1 H2 IH2 | r1 r2 s0 _ IH | r1 r2 s0 _ IH
                  | r | r s1 s2 H1 IH1 H2 IH2]; intros c s E; simpl.
  - discriminate E.
  - injection E as -> <-. rewrite Hp. constructor.
  - destruct s1 as [| d s1'].
    + simpl in E. rewrite (matches_empty_nullable r1 [] H1 eq_refl).
      apply RegExp.MOrR. apply IH2. exact E.
    + simpl in E. injection E as -> <-.
      assert (Hseq : RegExp.Matches (RegExp.Seq (RegExp.derive c r1) r2) (s1' ++ s2)%list).
      { constructor; [apply IH1; reflexivity | exact H2]. }
      destruct (RegExp.nullable r1); [apply RegExp.MOrL |]; exact Hseq.
  - apply RegExp.MOrL. apply IH. exact E.
  - apply RegExp.MOrR. apply IH. exact E.
  - discriminate E.
  - destruct s1 as [| d s1'].
    + simpl in E. apply IH2. exact E.
    + simpl in E. injection E as -> <-.
      constructor; [apply IH1; reflexivity | exact H2].
Qed.

Lemma test_spec (r : RegExp.t) (s : list N) :
  RegExp.test r s = true <-> RegExp.Matches r s.
Proof.
  revert r. induction s as [| c s IH]; intros r; simpl.
  - split; [apply nullable_matches_empty | intros H; exact (matches_empty_nullable r [] H eq_refl)].
  - rewrite IH. split.
    + apply derive_sound.
    + intros H. exact (derive_complete r _ H c s eq_refl).
Qed.

Lemma star_class_all (p : N -> bool) (r : RegExp.t) (s : list N) :
  RegExp.Matches r s -> r = RegExp.Star (RegExp.Class p) -> forallb p s = true.
Proof.
  induction 1 as [| | | | | r0 | r0 s1 s2 H1 _ H2 IH2]; intros E; try discriminate E.
  - reflexivity.
  - injection E as ->. inversion H1 as [| ? c Hp | | | | |]; subst.
    simpl. rewrite Hp. apply IH2. reflexivity.
Qed.

Lemma all_star_class (p : N -> bool) (s : list N) :
  forallb p s = true -> RegExp.Matches (RegExp.Star (RegExp.Class p)) s.
Proof.
  induction s as [| c s IH]; simpl; intros H.
  - constructor.
  - apply andb_true_iff in H. destruct H as [Hc Hs].
    change (c :: s) with ([c] ++ s)%list.
    apply RegExp.MStarCons; [constructor; exact Hc | auto].
Qed.

Lemma plus_class_spec (p : N -> bool) (s : list N) :
  RegExp.Matches (RegExp.Plus (RegExp.Class p)) s <-> s <> [] /\ forallb p s = true.
Proof.
  unfold RegExp.Plus. split.
  - intros H. inversion H as [| | ? ? s1 s2 H1 H2 | | | |]; subst.
    inversion H1 as [| ? c Hp | | | | |]; subst. simpl. split; [discriminate |].
    rewrite Hp. exact (star_class_all p _ s2 H2 eq_refl).
  - intros [Hne Hall]. destruct s as [| c s]; [contradiction |].
    simpl in Hall. apply andb_true_iff in Hall. destruct Hall as [Hc Hs].
    change (c :: s) with ([c] ++ s)%list.
    constructor; [constructor; exact Hc | apply all_star_class; exact Hs].
Qed.

Lemma char_class_spec (x : N) (s : list N) :
  RegExp.Matches (RegExp.Class (RegExp.isChar x)) s <-> s = [x].
Proof.
  split.
  - intros H. inversion H as [| ? c Hp | | | | |]; subst.
    unfold RegExp.isChar in Hp. apply N.eqb_eq in Hp. rewrite Hp. reflexivity.
  - intros ->. constructor. unfold RegExp.isChar. apply N.eqb_refl.
Qed.

(** The shape of an accepted sequence of code units: a local part, an at
    sign, a domain, a backslash, one more code unit and an ending. *)
Lemma emailPattern_shape (s : list N) :
  RegExp.test EmailPattern.emailPattern s = true <->
  exists local domain c ending,
    s = (local ++ [EmailPattern.atSign] ++ domain
         ++ [EmailPattern.backslash; c] ++ ending)%list /\
    local <> [] /\ forallb EmailPattern.classChar local = true /\
    domain <> [] /\ forallb EmailPattern.classChar domain = true /\
    RegExp.dot c = true /\
    ending <> [] /\ forallb EmailPattern.classChar ending = true.
Proof.
  rewrite test_spec. unfold EmailPattern.emailPattern. split.
  - intros H.
    inversion H as [| | ? ? local s2 Hl H2 | | | |]; subst.
    inversion H2 as [| | ? ? sat s3 Hat H3 | | | |]; subst.
    inversion H3 as [| | ? ? domain s4 Hd H4 | | | |]; subst.
    inversion H4 as [| | ? ? sb s5 Hb H5 | | | |]; subst.
    inversion H5 as [| | ? ? sc ending Hc He | | | |]; subst.
    apply plus_class_spec in Hl. apply plus_class_spec in Hd. apply plus_class_spec in He.
    apply char_class_spec in Hat. apply char_class_spec in Hb. subst sat sb.
    inversion Hc as [| ? c Hdot | | | | |]; subst.
    exists local, domain, c, ending.
    destruct Hl as [Hl1 Hl2]. destruct Hd as [Hd1 Hd2]. destruct He as [He1 He2].
    repeat split; assumption.
  - intros [local [domain [c [ending [-> [Hl1 [Hl2 [Hd1 [Hd2 [Hdot [He1 He2]]]]]]]]]]].
    constructor; [apply plus_class_spec; split; assumption |].
    constructor; [apply char_class_spec; reflexivity |].
    constructor; [apply plus_class_spec; split; assumption |].
    change ([EmailPattern.backslash; c] ++ ending)%list
      with ([EmailPattern.backslash] ++ ([c] ++ ending))%list.
    constructor; [apply char_class_spec; reflexivity |].
    constructor; [constructor; exact Hdot | apply plus_class_spec; split; assumption].
Qed.

Lemma emailPattern_needs_backslash (R : JS.Runtime) (s : string) :
  EmailPattern.test R s = true -> In EmailPattern.backslash (JS.codeUnits R s).
Proof.
  unfold EmailPattern.test. intros H. apply emailPattern_shape in H.
  destruct H as [local [domain [c [ending [-> _]]]]].
  apply in_or_app. right. apply in_or_app. right.
  apply in_or_app. right. left. reflexivity.
Qed.

Lemma not_in_by_test (x : N) (l : list N) :
  existsb (N.eqb x) l = false -> ~ In x l.
Proof.
  intros Htest Hin.
  assert (Hex : existsb (N.eqb x) l = true).
  { apply existsb_exists. exists x. split; [exact Hin | apply N.eqb_refl]. }
  rewrite Hex in Htest. discriminate Htest.
Qed.

Lemma emailPattern_refuses (R : JS.Runtime) (s : string) :
  ~ In EmailPattern.backslash (JS.codeUnits R s) -> EmailPattern.test R s = false.
Proof.
  intros Hno. destruct (EmailPattern.test R s) eqn:E; [| reflexivity].
  exfalso. apply Hno. apply emailPattern_needs_backslash. exact E.
Qed.

(** X18: on every runtime, the e-mail pattern accepts exactly the strings
    whose code units are a local part, an at sign, a domain, a
    backslash, one code unit that is no line terminator, and an ending,
    where the three parts are not empty and hold no backslash, no
    letter s and no at sign.  So every accepted string contains a
    backslash, and an address of the usual shape such as
    user@example.com is refused. *)
Theorem X18_email_pattern_wants_a_backslash :
  forall (R : JS.Runtime) (s : string),
    (EmailPattern.test R s = true <->
     exists local domain c ending,
       JS.codeUnits R s = (local ++ [EmailPattern.atSign] ++ domain
                           ++ [EmailPattern.backslash; c] ++ ending)%list /\
       local <> [] /\ forallb EmailPattern.classChar local = true /\
       domain <> [] /\ forallb EmailPattern.classChar domain = true /\
       RegExp.dot c = true /\
       ending <> [] /\ forallb EmailPattern.classChar ending = true) /\
    (~ In EmailPattern.backslash (JS.codeUnits R s) -> EmailPattern.test R s = false) /\
    EmailPattern.test R "user@example.com" = false /\
    EmailPattern.test R "me@home\.org" = true.
Proof.
  intros R s. split; [apply emailPattern_shape |]. split; [apply emailPattern_refuses |].
  split; unfold EmailPattern.test; ascii_runtime R; reflexivity.
Qed.

Lemma X18_email_pattern_wants_a_backslash_witness :
  EmailPattern.test JS.asciiRuntime "jane.doe@mail.example.org" = false.
Proof.
  destruct (X18_email_pattern_wants_a_backslash JS.asciiRuntime "jane.doe@mail.example.org")
    as [_ [Hrefused _]].
  apply Hrefused. apply not_in_by_test. reflexivity.
Defined.

(** ** Signing up and logging in *)

(** X19: on every runtime, the sign-up form refuses every address
    without a backslash.  For such an address (user@example.com is one)
    the handler sets "Invalid email address", does not call
    registerUser, dispatches nothing and does not navigate.  For an
    address the pattern accepts it calls registerUser once with the
    whole form as its first argument, so the account dispatched to the
    store has the form object as name and no e-mail, and navigates to
    /account.  The message "Registration failed. Try again." is never
    set, registerUser resolving always. *)
Theorem X19_signup_refuses_usual_addresses :
  forall (R : JS.Runtime) (form : Signup.Form) (error0 : string),
    (~ In EmailPattern.backslash (JS.codeUnits R (Signup.email form)) ->
     Signup.handleSubmit R form error0 = Signup.mkOutcome "Invalid email address" 0 None None) /\
    (EmailPattern.test R (Signup.email form) = true ->
     Signup.handleSubmit R form error0
     = Signup.mkOutcome error0 1
         (Some (AuthService.mkResponse "mock-jwt-token"
                  (AuthService.mkUser "2" AuthService.Obj AuthService.Undefined)))
         (Some "/account")) /\
    (Signup.error (Signup.handleSubmit R form error0) = "Registration failed. Try again." ->
     error0 = "Registration failed. Try again.") /\
    Signup.handleSubmit R (Signup.mkForm "Jane" "user@example.com" "secret") error0
      = Signup.mkOutcome "Invalid email address" 0 None None.
Proof.
  intros R form error0. unfold Signup.handleSubmit.
  split; [| split; [| split]].
  - intros Hno. rewrite (emailPattern_refuses R _ Hno). reflexivity.
  - intros ->. reflexivity.
  - destruct (EmailPattern.test R (Signup.email form)); simpl.
    + intros H. exact H.
    + intros H. discriminate H.
  - cbn [Signup.email]. unfold EmailPattern.test. ascii_runtime R. reflexivity.
Qed.

Lemma X19_signup_refuses_usual_addresses_witness :
  Signup.handleSubmit JS.asciiRuntime (Signup.mkForm "John" "john.doe@bookhaven.com" "password") ""
  = Signup.mkOutcome "Invalid email address" 0 None None.
Proof.
  destruct (X19_signup_refuses_usual_addresses JS.asciiRuntime
              (Signup.mkForm "John" "john.doe@bookhaven.com" "password") "")
    as [Hrefused _].
  apply Hrefused. apply not_in_by_test. reflexivity.
Defined.

(** X20: the login form never logs in.  loginUser resolves exactly when
    its first argument is the string "user@bookhaven.com" and its second
    the string "password"; the form calls it with the form object as
    the only argument, so for every form content, the right credentials
    included, the handler ends with "Invalid email or password",
    dispatches no user and does not navigate.  The Google button always
    logs in and navigates to "/". *)
Theorem X20_login_form_never_logs_in :
  (forall (email password : AuthService.Arg),
     (exists response, AuthService.loginUser email password = inl response) <->
     email = AuthService.Str "user@bookhaven.com" /\ password = AuthService.Str "password") /\
  (forall (form : Login.Form) (error0 : string),
     Login.handleSubmit form error0
     = Login.mkOutcome "Invalid email or password" None None) /\
  (forall error0 : string,
     Login.error (Login.handleGoogleLogin error0) = error0 /\
     Login.navigated (Login.handleGoogleLogin error0) = Some "/" /\
     exists response,
       Login.dispatched (Login.handleGoogleLogin error0) = Some response /\
       AuthService.token response = "mock-google-oauth-token").
Proof.
  split; [| split].
  - intros email password. unfold AuthService.loginUser, AuthService.isString. split.
    + intros [response H].
      destruct email as [e | |]; try discriminate H.
      destruct (String.eqb_spec e "user@bookhaven.com") as [-> | _]; [| discriminate H].
      destruct password as [p | |]; try discriminate H.
      destruct (String.eqb_spec p "password") as [-> | _]; [| discriminate H].
      split; reflexivity.
    + intros [-> ->]. eexists. reflexivity.
  - intros form error0. reflexivity.
  - intros error0. split; [reflexivity |]. split; [reflexivity |].
    eexists. split; reflexivity.
Qed.

(** ** The two contact forms of the static site *)

Lemma truthy_of_nonblank (R : JS.Runtime) (v : string) :
  MarkedContact.blank R v = false -> JS.truthy v = true.
Proof.
  unfold MarkedContact.blank. destruct v as [| c v]; [| reflexivity].
  rewrite (JS.trim_ascii R "" eq_refl). discriminate.
Qed.

(** X21: on every runtime, the first contact form sends a message exactly
    when the three fields are not empty and the e-mail passes the
    pattern; the form is reset exactly then.  An e-mail without a
    backslash is never sent: the status is then one of the two red
    messages. *)
Theorem X21_contact_form_sends_when_complete :
  forall (R : JS.Runtime) (name email message : string),
    let out := MainContact.onSubmit R name email message in
    (MainContact.later out = Some (MainContact.mkStatus "Message sent successfully!" "green")
     <-> name <> "" /\ email <> "" /\ message <> "" /\ EmailPattern.test R email = true) /\
    (MainContact.formReset out = true <-> MainContact.later out <> None) /\
    (~ In EmailPattern.backslash (JS.codeUnits R email) ->
     MainContact.later out = None /\
     MainContact.formReset out = false /\
     MainContact.color (MainContact.atOnce out) = "red").
Proof.
  intros R name email message out. subst out. unfold MainContact.onSubmit.
  destruct name as [| n name']; cbn [JS.truthy negb orb].
  { split; [split; [discriminate | intros [H _]; contradiction] |].
    split; [split; [discriminate | intros H; contradiction] |].
    intros _. repeat split. }
  destruct email as [| e email']; cbn [JS.truthy negb orb].
  { split; [split; [discriminate | intros [_ [H _]]; contradiction] |].
    split; [split; [discriminate | intros H; contradiction] |].
    intros _. repeat split. }
  destruct message as [| m message']; cbn [JS.truthy negb orb].
  { split; [split; [discriminate | intros [_ [_ [H _]]]; contradiction] |].
    split; [split; [discriminate | intros H; contradiction] |].
    intros _. repeat split. }
  destruct (EmailPattern.test R (String e email')) eqn:E; cbn [negb].
  - split; [split; [intros _; repeat split; discriminate | reflexivity] |].
    split; [split; [discriminate | reflexivity] |].
    intros Hno. exfalso. apply Hno. apply emailPattern_needs_backslash. exact E.
  - split; [split; [discriminate | intros [_ [_ [_ H]]]; discriminate H] |].
    split; [split; [discriminate | intros H; contradiction] |].
    intros _. repeat split.
Qed.

Lemma X21_contact_form_sends_when_complete_witness :
  MainContact.later (MainContact.onSubmit JS.asciiRuntime "Jane" "jane@example.com" "Hello") = None.
Proof.
  destruct (X21_contact_form_sends_when_complete JS.asciiRuntime
              "Jane" "jane@example.com" "Hello")
    as [_ [_ Hrefused]].
  apply Hrefused. apply not_in_by_test. reflexivity.
Defined.

(** X22: on every runtime, the second contact form reports success
    exactly when name, e-mail and message are not blank (of each [trim]
    leaves something) and the e-mail passes the pattern.  Then no field
    is marked, the message is "Message sent successfully!" with the
    class success, and the form is reset.  Otherwise the form is not
    reset and the message has the class error and is the one about the
    e-mail address when the e-mail is not empty and fails the pattern,
    the one about required fields else.  The e-mail field is marked
    exactly when it is blank or fails the pattern, and the message is
    never empty. *)
Theorem X22_marked_contact_form_outcomes :
  forall (R : JS.Runtime) (name email message : string),
    let out := MarkedContact.onSubmit R name email message in
    let complete := negb (MarkedContact.blank R name) && negb (MarkedContact.blank R email)
                    && negb (MarkedContact.blank R message) && EmailPattern.test R email in
    MarkedContact.formReset out = complete /\
    (complete = true ->
     MarkedContact.text out = "Message sent successfully!" /\
     MarkedContact.classes out = ["form-message"; "success"] /\
     MarkedContact.nameMarked out = false /\
     MarkedContact.emailMarked out = false /\
     MarkedContact.messageMarked out = false) /\
    (complete = false ->
     MarkedContact.classes out = ["form-message"; "error"] /\
     MarkedContact.text out
     = if JS.truthy email && negb (EmailPattern.test R email)
       then "Please enter a valid email address."
       else "Please fill out all required fields.") /\
    MarkedContact.emailMarked out
      = MarkedContact.blank R email || negb (EmailPattern.test R email) /\
    MarkedContact.nameMarked out = MarkedContact.blank R name /\
    MarkedContact.messageMarked out = MarkedContact.blank R message /\
    MarkedContact.text out <> "".
Proof.
  intros R name email message out complete. subst out complete.
  unfold MarkedContact.onSubmit.
  pose proof (truthy_of_nonblank R email) as Htruthy.
  destruct (MarkedContact.blank R name), (MarkedContact.blank R email) eqn:Eb,
           (MarkedContact.blank R message), (EmailPattern.test R email) eqn:Et;
    try (rewrite (Htruthy eq_refl));
    destruct (JS.truthy email);
    cbn [negb andb orb JS.truthy app];
    repeat split; try discriminate; try reflexivity;
    intros H; discriminate H.
Qed.

Lemma X22_marked_contact_form_outcomes_witness :
  MarkedContact.text (MarkedContact.onSubmit JS.asciiRuntime "Jane" "jane@example.com" "Hello")
  = "Please enter a valid email address.".
Proof.
  destruct (X22_marked_contact_form_outcomes JS.asciiRuntime "Jane" "jane@example.com" "Hello")
    as [_ [_ [Hfail _]]].
  destruct Hfail as [_ Htext]; [reflexivity | exact Htext].
Defined.

(** ** The request hook *)

(** X24: a request always ends with loading off and hands on what the
    service gave.  After a result, the data is that result and the
    error is cleared; after a failure the data is what it was before,
    the error is the message of the failure, or "An error occurred"
    when the failure has no message or an empty one, so it is never
    empty, and the failure is thrown on to the caller. *)
Theorem X24_request_settles :
  forall (T : Type) (settled : T + option string) (s : UseApi.State T),
    let after := UseApi.request settled s in
    UseApi.loading (fst after) = false /\
    snd after = settled /\
    match settled with
    | inl result =>
        UseApi.data (fst after) = Some result /\ UseApi.error (fst after) = None
    | inr message =>
        UseApi.data (fst after) = UseApi.data s /\
        exists shown,
          UseApi.error (fst after) = Some shown /\ shown <> "" /\
          (forall m, message = Some m -> m <> "" -> shown = m) /\
          (message = None \/ message = Some "" -> shown = "An error occurred")
    end.
Proof.
  intros T settled s after. subst after. unfold UseApi.request.
  destruct settled as [result | message]; cbn [fst snd UseApi.loading UseApi.data UseApi.error].
  - repeat split.
  - split; [reflexivity |]. split; [reflexivity |]. split; [reflexivity |].
    destruct message as [m |].
    + destruct m as [| c m']; cbn [JS.truthy].
      * eexists. split; [reflexivity |]. split; [discriminate |].
        split; [intros m Hm Hne; injection Hm as <-; contradiction | reflexivity].
      * eexists. split; [reflexivity |]. split; [discriminate |].
        split; [intros m Hm _; injection Hm as <-; reflexivity |].
        intros [H | H]; discriminate H.
    + eexists. split; [reflexivity |]. split; [discriminate |].
      split; [intros m Hm; discriminate Hm | reflexivity].
Qed.

Lemma X24_request_settles_witness :
  UseApi.error (fst (UseApi.request (inr (Some "")) (UseApi.mkState (Some 7) false None)))
  = Some "An error occurred".
Proof.
  pose proof (X24_request_settles Z (inr (Some "")) (UseApi.mkState (Some 7) false None))
    as [_ [_ [_ [shown [Herr [_ [_ Hdefault]]]]]]].
  rewrite Herr. f_equal. apply Hdefault. right. reflexivity.
Defined.

(** ** The catalog: loading again *)



